(** * DBConnect: connection dispatch and result normalisation

    A shallow embedding of [DBConnect.py] (class [DBConnect]: [connect],
    [disconnect], [status], [runSql] and the four [_xConnection] helpers).

    The four client libraries (oracledb, pymssql, psycopg2, MySQLdb) are
    outside the repository.  Every call into them is a field of the record
    [Driver], over an abstract [World]; the methods of the class are
    state-and-exception computations over the object's attributes, the
    world, the diagnostic output and the list of native calls made. *)

From Stdlib Require Import ZArith List String Bool Lia.
Import ListNotations.

Local Open Scope string_scope.
Local Open Scope list_scope.

(** ** Backends and exceptions *)

(** [class DBType(Enum)] and its [.value]. *)
Inductive DBType : Type := ORACLE | SQL_SERVER | POSTGRESQL | MYSQL.

Definition DBType_value (t : DBType) : string :=
  match t with
  | ORACLE => "oracle"
  | SQL_SERVER => "sqlserver"
  | POSTGRESQL => "postgresql"
  | MYSQL => "mysql"
  end.

Definition DBType_eqb (a b : DBType) : bool :=
  match a, b with
  | ORACLE, ORACLE | SQL_SERVER, SQL_SERVER
  | POSTGRESQL, POSTGRESQL | MYSQL, MYSQL => true
  | _, _ => false
  end.

(** The module an exception class lives in: Python's builtins, or the
    client library of a backend. *)
Inductive Library : Type :=
  | Builtins
  | LibraryOf (t : DBType).

Definition Library_eqb (a b : Library) : bool :=
  match a, b with
  | Builtins, Builtins => true
  | LibraryOf x, LibraryOf y => DBType_eqb x y
  | _, _ => false
  end.

(** The DB-API 2.0 exception classes every one of the four libraries
    exports, and the builtin classes the code can meet. *)
Inductive ExnClass : Type :=
  | InterfaceError
  | DatabaseError
  | DataError
  | OperationalError
  | IntegrityError
  | InternalError
  | ProgrammingError
  | NotSupportedError
  | AttributeError
  | IndexError
  | ValueError
  | OtherException.

Definition class_name (c : ExnClass) : string :=
  match c with
  | InterfaceError => "InterfaceError"
  | DatabaseError => "DatabaseError"
  | DataError => "DataError"
  | OperationalError => "OperationalError"
  | IntegrityError => "IntegrityError"
  | InternalError => "InternalError"
  | ProgrammingError => "ProgrammingError"
  | NotSupportedError => "NotSupportedError"
  | AttributeError => "AttributeError"
  | IndexError => "IndexError"
  | ValueError => "ValueError"
  | OtherException => "Exception"
  end.

(** DB-API 2.0: [DatabaseError] and its six subclasses;
    [InterfaceError] is a sibling of [DatabaseError], not a subclass. *)
Definition sub_DatabaseError (c : ExnClass) : bool :=
  match c with
  | DatabaseError | DataError | OperationalError | IntegrityError
  | InternalError | ProgrammingError | NotSupportedError => true
  | _ => false
  end.

(** An exception object: class, message ([str(err)]) and [__context__],
    which Python sets to the exception being handled when a [raise]
    runs inside an [except] block. *)
#[local] Set Warnings "-register-all".
Inductive Exn : Type :=
  | mkExn (lib : Library) (cls : ExnClass) (msg : string) (context : option Exn).

Definition exn_lib (e : Exn) : Library := let (l, _, _, _) := e in l.
Definition exn_cls (e : Exn) : ExnClass := let (_, c, _, _) := e in c.
Definition exn_msg (e : Exn) : string := let (_, _, m, _) := e in m.
Definition exn_context (e : Exn) : option Exn := let (_, _, _, x) := e in x.

(** [except oracledb.DatabaseError], [except pymssql.DatabaseError], ... *)
Definition is_DatabaseError (t : DBType) (e : Exn) : bool :=
  Library_eqb (exn_lib e) (LibraryOf t) && sub_DatabaseError (exn_cls e).

(** [except pymssql.OperationalError] *)
Definition is_OperationalError (t : DBType) (e : Exn) : bool :=
  Library_eqb (exn_lib e) (LibraryOf t)
  && match exn_cls e with OperationalError => true | _ => false end.

(** [except pymssql.InterfaceError] *)
Definition is_InterfaceError (t : DBType) (e : Exn) : bool :=
  Library_eqb (exn_lib e) (LibraryOf t)
  && match exn_cls e with InterfaceError => true | _ => false end.

Inductive result (A : Type) : Type :=
  | Ok (a : A)
  | Exc (e : Exn).
Arguments Ok {A} a.
Arguments Exc {A} e.

(** ** Rows and results *)

Inductive Value : Type :=
  | VNone
  | VInt (z : Z)
  | VStr (s : string).

(** A Python [dict] with string keys: insertion-ordered, one entry per key. *)
Definition Row : Type := list (string * Value).

Definition keys (d : Row) : list string := map fst d.
Definition values (d : Row) : list Value := map snd d.

(** [d[k] = v]: an existing key keeps its position and takes the new
    value, a new key goes to the end. *)
Fixpoint dict_set (k : string) (v : Value) (d : Row) : Row :=
  match d with
  | [] => [(k, v)]
  | (k', v') :: d' =>
      if String.eqb k k' then (k, v) :: d' else (k', v') :: dict_set k v d'
  end.

(** [dict(pairs)] *)
Definition dict (kvs : list (string * Value)) : Row :=
  fold_left (fun d kv => dict_set (fst kv) (snd kv) d) kvs [].

(** [zip(a, b)] stops at the shorter argument. *)
Definition zip {A B : Type} (a : list A) (b : list B) : list (A * B) := combine a b.

(** [{'Row(s) affected': n}] *)
Definition rows_affected (n : Z) : Row := [("Row(s) affected", VInt n)].

(** What [runSql] returns and stores: the list [results], or, under
    [one], its element [results[0]]. *)
Inductive Results : Type :=
  | RList (rows : list Row)
  | ROne (row : Row).

(** ** Diagnostics and native calls *)

Inductive Output : Type :=
  | logging_error (err : Exn)
  | logging_exception (err : Exn)
  | print (line : string).

Inductive Call : Type :=
  | CallConnect (t : DBType)
  | CallIsHealthy
  | CallConnected
  | CallClosed
  | CallOpen
  | CallClose (t : DBType)
  | CallCursor (t : DBType)
  | CallExecute (t : DBType) (sql : string)
  | CallFetchall (t : DBType)
  | CallCommit (t : DBType).

Definition is_CallConnect (c : Call) : bool :=
  match c with CallConnect _ => true | _ => false end.

Definition is_CallFetchall (c : Call) : bool :=
  match c with CallFetchall _ => true | _ => false end.

Definition is_probe (c : Call) : bool :=
  match c with
  | CallIsHealthy | CallConnected | CallClosed | CallOpen => true
  | _ => false
  end.

Set Implicit Arguments.

(** The calls of [disconnect] and of a commit. *)
Definition is_closing (c : Call) : bool :=
  match c with
  | CallIsHealthy | CallConnected | CallClosed | CallOpen
  | CallClose _ | CallCommit _ => true
  | _ => false
  end.

Definition not_CallConnect (c : Call) : bool := negb (is_CallConnect c).

Definition not_CallFetchall (c : Call) : bool := negb (is_CallFetchall c).

Definition any_call (c : Call) : bool := true.

(** How the messages of [runSql] call each backend. *)
Definition backend_label (t : DBType) : string :=
  match t with
  | ORACLE => "Oracle"
  | SQL_SERVER => "SQL Server"
  | POSTGRESQL => "PostgreSQL"
  | MYSQL => "MySQL"
  end.

Section Dispatcher.

Variables World Conn Cursor : Type.

(** The client libraries.  A call takes the world and returns a value or
    an exception and the next world; attributes of a cursor are read
    from the world.

    [native_connect t] is the evaluation of [oracledb.connect(...)],
    [pymssql.connect(...)], [psycopg2.connect(...)] or
    [MySQLdb.Connection(...)] with its arguments (the look-ups in
    [connDetails], [dKey.decrypt], [int(port)]): in [_sqlServerConnection],
    [_pgConnection] and [_mySqlConnection] all of it is inside the [try];
    in [_oracleConnection] the [dsn] is built before the [try], from
    dictionary look-ups and string concatenation, which raise no
    [DatabaseError], so an exception from there passes the handler as it
    does here. *)
Record Driver : Type := {
  native_connect : DBType -> World -> result Conn * World;
  conn_is_healthy : Conn -> World -> result bool * World;
  conn_connected : Conn -> World -> result bool * World;
  conn_closed : Conn -> World -> result Z * World;
  conn_open : Conn -> World -> result Z * World;
  conn_close : DBType -> Conn -> World -> result unit * World;
  conn_cursor : DBType -> Conn -> World -> result Cursor * World;
  cur_execute : DBType -> Cursor -> string -> World -> result Z * World;
  cur_fetchall_tuples : Cursor -> World -> result (list (list Value)) * World;
  cur_fetchall : DBType -> Cursor -> World -> result (list Row) * World;
  conn_commit : DBType -> Conn -> World -> result unit * World;
  cur_description : Cursor -> World -> option (list string);
  cur_rowcount : DBType -> Cursor -> World -> Z;
  cur_statusmessage : Cursor -> World -> string
}.

Variable drv : Driver.

(** The attributes of a [DBConnect] object that the methods below read
    or write; [rdbms] is [connDetails['rdbms']]. *)
Record DBConnect : Type := {
  name : string;
  rdbms : string;
  connection : option Conn;
  lastResult : option Results
}.

Record State : Type := {
  self : DBConnect;
  world : World;
  output : list Output;
  calls : list Call
}.

(** *** The state and exception monad *)

Definition M (A : Type) : Type := State -> result A * State.

Definition ret {A : Type} (a : A) : M A := fun s => (Ok a, s).

Definition bind {A B : Type} (m : M A) (f : A -> M B) : M B :=
  fun s =>
    match m s with
    | (Ok a, s') => f a s'
    | (Exc e, s') => (Exc e, s')
    end.

Definition raise {A : Type} (e : Exn) : M A := fun s => (Exc e, s).

(** [try: m  except C as err: handler(err)] *)
Definition try_except {A : Type} (m : M A) (C : Exn -> bool) (handler : Exn -> M A) : M A :=
  fun s =>
    match m s with
    | (Ok a, s') => (Ok a, s')
    | (Exc e, s') => if C e then handler e s' else (Exc e, s')
    end.

Definition get_self : M DBConnect := fun s => (Ok (self s), s).

Definition get_world : M World := fun s => (Ok (world s), s).

Definition emit (o : Output) : M unit :=
  fun s => (Ok tt, {| self := self s; world := world s;
                      output := output s ++ [o]; calls := calls s |}).

Definition call {A : Type} (c : Call) (f : World -> result A * World) : M A :=
  fun s =>
    let (r, w) := f (world s) in
    (r, {| self := self s; world := w;
           output := output s; calls := calls s ++ [c] |}).

Definition set_connection (c : option Conn) : M unit :=
  fun s => (Ok tt, {| self := {| name := name (self s); rdbms := rdbms (self s);
                                 connection := c;
                                 lastResult := lastResult (self s) |};
                      world := world s; output := output s; calls := calls s |}).

Definition set_lastResult (r : Results) : M unit :=
  fun s => (Ok tt, {| self := {| name := name (self s); rdbms := rdbms (self s);
                                 connection := connection (self s);
                                 lastResult := Some r |};
                      world := world s; output := output s; calls := calls s |}).

Definition when (b : bool) (m : M unit) : M unit := if b then m else ret tt.

Notation "x <- m ;; k" := (bind m (fun x => k))
  (at level 61, m at next level, right associativity).
Notation "m ;; k" := (bind m (fun _ => k))
  (at level 61, right associativity).

(** [self.connection.<attr>]: on [None] the attribute look-up fails. *)
Definition the_connection (attr : string) : M Conn :=
  me <- get_self ;;
  match connection me with
  | Some c => ret c
  | None =>
      raise (mkExn Builtins AttributeError
               ("'NoneType' object has no attribute '" ++ attr ++ "'") None)
  end.

(** *** [_oracleConnection], [_sqlServerConnection], [_pgConnection],
    [_mySqlConnection]

    Each returns the open connection, or, when the library raises a
    [DatabaseError], reports it and falls off the end of the function:
    the value is then [None]. *)

Definition _oracleConnection : M (option Conn) :=
  me <- get_self ;;
  try_except
    (c <- call (CallConnect ORACLE) (native_connect drv ORACLE) ;; ret (Some c))
    (is_DatabaseError ORACLE)
    (fun err =>
       emit (logging_error err) ;;
       emit (print ("Could not establish Oracle connection for " ++ name me)) ;;
       ret None).

Definition _sqlServerConnection : M (option Conn) :=
  me <- get_self ;;
  try_except
    (c <- call (CallConnect SQL_SERVER) (native_connect drv SQL_SERVER) ;; ret (Some c))
    (is_DatabaseError SQL_SERVER)
    (fun err =>
       emit (logging_exception err) ;;
       emit (print ("Could not establish SQL Server connection for " ++ name me)) ;;
       ret None).

Definition _pgConnection : M (option Conn) :=
  me <- get_self ;;
  try_except
    (c <- call (CallConnect POSTGRESQL) (native_connect drv POSTGRESQL) ;; ret (Some c))
    (is_DatabaseError POSTGRESQL)
    (fun err =>
       emit (logging_exception err) ;;
       emit (print ("Could not establish PostgreSQL connection for " ++ name me)) ;;
       ret None).

Definition _mySqlConnection : M (option Conn) :=
  me <- get_self ;;
  try_except
    (c <- call (CallConnect MYSQL) (native_connect drv MYSQL) ;; ret (Some c))
    (is_DatabaseError MYSQL)
    (fun err =>
       emit (logging_exception err) ;;
       emit (print ("Could not establish MySQL connection for " ++ name me)) ;;
       ret None).

(** *** [connect] *)

Definition connect : M unit :=
  me <- get_self ;;
  if rdbms me =? DBType_value ORACLE then
    try_except
      (c <- _oracleConnection ;; set_connection c)
      (is_DatabaseError ORACLE)
      (fun err =>
         emit (logging_error err) ;;
         emit (print ("Unexpected error connecting to " ++ name me)))
  else if rdbms me =? DBType_value SQL_SERVER then
    try_except
      (c <- _sqlServerConnection ;; set_connection c)
      (is_DatabaseError SQL_SERVER)
      (fun err =>
         emit (logging_error err) ;;
         emit (print ("Unexpected error connecting to " ++ name me)))
  else if rdbms me =? DBType_value POSTGRESQL then
    try_except
      (c <- _pgConnection ;; set_connection c)
      (is_DatabaseError POSTGRESQL)
      (fun err =>
         emit (logging_error err) ;;
         emit (print ("Unexpected error connecting to " ++ name me)))
  else if rdbms me =? DBType_value MYSQL then
    try_except
      (c <- _mySqlConnection ;; set_connection c)
      (is_DatabaseError MYSQL)
      (fun err =>
         emit (logging_error err) ;;
         emit (print ("Unexpected error connecting to " ++ name me)))
  else
    raise (mkExn Builtins ValueError
             ("Unknown database type " ++ rdbms me
              ++ " - cannot establish a connection!") None).

(** *** [status] *)

Definition status : M bool :=
  me <- get_self ;;
  match connection me with
  | None => ret false
  | Some c =>
      if rdbms me =? DBType_value ORACLE then
        try_except
          (h <- call CallIsHealthy (conn_is_healthy drv c) ;;
           if h then ret true else ret false)
          (is_DatabaseError ORACLE)
          (fun err =>
             emit (logging_error err) ;;
             emit (print ("Unexpected error connecting to " ++ name me)) ;;
             ret false)
      else if rdbms me =? DBType_value SQL_SERVER then
        try_except
          (call CallConnected (conn_connected drv c))
          (is_InterfaceError SQL_SERVER)
          (fun _ => ret false)
      else if rdbms me =? DBType_value POSTGRESQL then
        z <- call CallClosed (conn_closed drv c) ;;
        if negb (z =? 0)%Z then ret false else ret true
      else if rdbms me =? DBType_value MYSQL then
        z <- call CallOpen (conn_open drv c) ;;
        if (z =? 1)%Z then ret true else ret false
      else ret false
  end.

(** *** [disconnect] *)

Definition close_connection (t : DBType) : M unit :=
  me <- get_self ;;
  try_except
    (c <- the_connection "close" ;; call (CallClose t) (conn_close drv t c))
    (is_DatabaseError t)
    (fun err =>
       emit (logging_error err) ;;
       emit (print ("Unexpected error disconnecting from " ++ name me))).

Definition disconnect : M unit :=
  alive <- status ;;
  if alive then
    me <- get_self ;;
    if rdbms me =? DBType_value ORACLE then close_connection ORACLE
    else if rdbms me =? DBType_value SQL_SERVER then close_connection SQL_SERVER
    else if rdbms me =? DBType_value POSTGRESQL then close_connection POSTGRESQL
    else if rdbms me =? DBType_value MYSQL then close_connection MYSQL
    else
      raise (mkExn Builtins ValueError
               ("Unknown database type " ++ rdbms me
                ++ " - cannot establish a connection!") None)
  else ret tt.

(** *** [runSql]

    [if commit: self.connection.commit()] and [if kill: self.disconnect()],
    the last two statements of every [try] block of [runSql]. *)
Definition commit_and_kill (t : DBType) (commit kill : bool) : M unit :=
  when commit (c <- the_connection "commit" ;; call (CallCommit t) (conn_commit drv t c)) ;;
  when kill disconnect.

(** The [except] clause of every backend branch: log the native error,
    raise a new [DatabaseError] of the same library; the [raise] runs
    while [err] is being handled, so [err] is its [__context__]. *)
Definition reraise {A : Type} (t : DBType) (what : string) (err : Exn) : M A :=
  me <- get_self ;;
  emit (logging_error err) ;;
  raise (mkExn (LibraryOf t) DatabaseError
           ("Unable to execute SQL statement using " ++ what ++ " connection " ++ name me)
           (Some err)).

(** [cur = self.connection.cursor(...)], [cur.execute(sql)] and
    [cur.fetchall()], the three calls every branch makes. *)
Definition open_cursor (t : DBType) : M Cursor :=
  c <- the_connection "cursor" ;;
  call (CallCursor t) (conn_cursor drv t c).

Definition execute (t : DBType) (cur : Cursor) (sql : string) : M Z :=
  call (CallExecute t sql) (cur_execute drv t cur sql).

Definition fetch (t : DBType) (cur : Cursor) : M (list Row) :=
  call (CallFetchall t) (cur_fetchall drv t cur).

(** Oracle's [fetchall] hands each row, a tuple, to [cur.rowfactory]. *)
Definition fetch_tuples (cur : Cursor) : M (list (list Value)) :=
  call (CallFetchall ORACLE) (cur_fetchall_tuples drv cur).

(** The Oracle branch (lines 244-260). *)
Definition runSql_oracle (sql : string) (commit kill : bool) : M (list Row) :=
  cur <- open_cursor ORACLE ;;
  try_except
    (execute ORACLE cur sql ;;
     w <- get_world ;;
     results <-
       match cur_description drv cur w with
       | None => ret [rows_affected (cur_rowcount drv ORACLE cur w)]
       | Some columns =>
           let rowfactory := fun args : list Value => dict (zip columns args) in
           raw <- fetch_tuples cur ;;
           ret (map rowfactory raw)
       end ;;
     commit_and_kill ORACLE commit kill ;;
     ret results)
    (is_DatabaseError ORACLE)
    (reraise ORACLE "Oracle").

(** The SQL Server branch (lines 262-277). *)
Definition runSql_sqlserver (sql : string) (commit kill : bool) : M (list Row) :=
  cur <- open_cursor SQL_SERVER ;;
  try_except
    (execute SQL_SERVER cur sql ;;
     results <-
       try_except
         (fetch SQL_SERVER cur)
         (is_OperationalError SQL_SERVER)
         (fun _ =>
            w <- get_world ;;
            ret [rows_affected (cur_rowcount drv SQL_SERVER cur w)]) ;;
     commit_and_kill SQL_SERVER commit kill ;;
     ret results)
    (is_DatabaseError SQL_SERVER)
    (reraise SQL_SERVER "SQL Server").

(** The loop of the PostgreSQL branch (lines 286-290): [keys] and
    [values] are the lists of the rows' keys and values, and the loop
    over [range(len(rawResults))] appends [dict(zip(keys[i], values[i]))]. *)
Definition pg_rows (rawResults : list Row) : list Row :=
  let ks := map keys rawResults in
  let vs := map values rawResults in
  fold_left
    (fun results i => results ++ [dict (zip (nth i ks []) (nth i vs []))])
    (seq 0 (List.length rawResults)) [].

(** [cur.statusmessage[0:6] == 'SELECT' and cur.rowcount > 0] *)
Definition pg_selected_rows (cur : Cursor) (w : World) : bool :=
  (substring 0 6 (cur_statusmessage drv cur w) =? "SELECT")
  && (cur_rowcount drv POSTGRESQL cur w >? 0)%Z.

(** The PostgreSQL branch (lines 279-299). *)
Definition runSql_postgresql (sql : string) (commit kill : bool) : M (list Row) :=
  cur <- open_cursor POSTGRESQL ;;
  try_except
    (execute POSTGRESQL cur sql ;;
     w <- get_world ;;
     results <-
       (if pg_selected_rows cur w
        then
          rawResults <- fetch POSTGRESQL cur ;;
          ret (pg_rows rawResults)
        else ret [rows_affected (cur_rowcount drv POSTGRESQL cur w)]) ;;
     commit_and_kill POSTGRESQL commit kill ;;
     ret results)
    (is_DatabaseError POSTGRESQL)
    (reraise POSTGRESQL "PostgreSQL").

(** The MySQL branch (lines 301-316); here the cursor is created inside
    the [try]. *)
Definition runSql_mysql (sql : string) (commit kill : bool) : M (list Row) :=
  try_except
    (cur <- open_cursor MYSQL ;;
     rowCount <- execute MYSQL cur sql ;;
     fetched <- fetch MYSQL cur ;;
     results <-
       (if (List.length fetched =? 0)%nat
        then ret [rows_affected rowCount] else ret fetched) ;;
     commit_and_kill MYSQL commit kill ;;
     ret results)
    (is_DatabaseError MYSQL)
    (reraise MYSQL "MySQL").

(** Lines 239-241: [self.status()], then [if not self.status(): self.connect()]. *)
Definition ensure_connected : M unit :=
  status ;;
  alive <- status ;;
  when (negb alive) connect.

(** Lines 244-318: the branch of the backend.  The last [else] builds a
    [ValueError] and drops it: [results] stays the empty list. *)
Definition run_statement (sql : string) (commit kill : bool) : M (list Row) :=
  me <- get_self ;;
  if rdbms me =? DBType_value ORACLE then runSql_oracle sql commit kill
  else if rdbms me =? DBType_value SQL_SERVER then runSql_sqlserver sql commit kill
  else if rdbms me =? DBType_value POSTGRESQL then runSql_postgresql sql commit kill
  else if rdbms me =? DBType_value MYSQL then runSql_mysql sql commit kill
  else ret [].

(** Lines 320-323: [results[0]] under [one], then store and return. *)
Definition finish (one : bool) (results : list Row) : M Results :=
  r <- (if one then
          match results with
          | row :: _ => ret (ROne row)
          | [] => raise (mkExn Builtins IndexError "list index out of range" None)
          end
        else ret (RList results)) ;;
  set_lastResult r ;;
  ret r.

Definition runSql (sql : string) (one commit kill : bool) : M Results :=
  ensure_connected ;;
  results <- run_statement sql commit kill ;;
  finish one results.

(** *** What the client library reports

    The conditions under which the theorems below speak, in the terms
    in which each backend's branch reads them. *)

(** The liveness probe of each backend, as [status] reads it, says
    "not alive": [is_healthy()] is false (or raises a [DatabaseError],
    which [status] reports and takes for false), [_conn.connected] is
    false or raises [InterfaceError], [closed] is non-zero, [open] is
    not 1. *)
Definition reports_not_alive (t : DBType) (c : Conn) (w : World) : Prop :=
  match t with
  | ORACLE =>
      fst (conn_is_healthy drv c w) = Ok false
      \/ exists e, fst (conn_is_healthy drv c w) = Exc e
                   /\ is_DatabaseError ORACLE e = true
  | SQL_SERVER =>
      fst (conn_connected drv c w) = Ok false
      \/ exists e, fst (conn_connected drv c w) = Exc e
                   /\ is_InterfaceError SQL_SERVER e = true
  | POSTGRESQL => exists z, fst (conn_closed drv c w) = Ok z /\ z <> 0%Z
  | MYSQL => exists z, fst (conn_open drv c w) = Ok z /\ z <> 1%Z
  end.

(** The world after the probe of backend [t]. *)
Definition probe_world (t : DBType) (c : Conn) (w : World) : World :=
  match t with
  | ORACLE => snd (conn_is_healthy drv c w)
  | SQL_SERVER => snd (conn_connected drv c w)
  | POSTGRESQL => snd (conn_closed drv c w)
  | MYSQL => snd (conn_open drv c w)
  end.

(** A library whose [close()] succeeds and leaves the connection
    reported not alive, and whose probe does not revive a connection. *)
Definition closes_cleanly (t : DBType) : Prop :=
  forall c w, exists w',
    conn_close drv t c w = (Ok tt, w') /\ reports_not_alive t c w'.

Definition not_alive_is_stable (t : DBType) : Prop :=
  forall c w, reports_not_alive t c w -> reports_not_alive t c (probe_world t c w).

(** After [cur.execute(sql)] left the state [s3], the cursor shows a
    statement without result rows and [K] affected rows, and the
    branch's classification ends in [s4]:
    Oracle has no column description; SQL Server's [fetchall] raises
    [OperationalError]; PostgreSQL's guard (status message beginning
    with SELECT and a positive row count) is false; MySQL's [fetchall]
    is empty and [execute] returned [K].  [K] is [cur.rowcount] on the
    first three and the value of [cur.execute(sql)] on MySQL. *)
Definition signals_no_rows (t : DBType) (cur : Cursor) (k : Z)
           (s3 s4 : State) (K : Z) : Prop :=
  match t with
  | ORACLE =>
      cur_description drv cur (world s3) = None
      /\ s4 = s3 /\ K = cur_rowcount drv ORACLE cur (world s3)
  | SQL_SERVER =>
      (exists e, fetch SQL_SERVER cur s3 = (Exc e, s4)
                 /\ is_OperationalError SQL_SERVER e = true)
      /\ K = cur_rowcount drv SQL_SERVER cur (world s4)
  | POSTGRESQL =>
      pg_selected_rows cur (world s3) = false
      /\ s4 = s3 /\ K = cur_rowcount drv POSTGRESQL cur (world s3)
  | MYSQL =>
      fetch MYSQL cur s3 = (Ok [], s4) /\ K = k
  end.



(** [results] as [runSql] returns a one-row result: the row under
    [one], the list of it otherwise. *)
Definition single (one : bool) (row : Row) : Results :=
  if one then ROne row else RList [row].

(** The calls made from [s] to [s'] all satisfy [P]; the object keeps
    its name and backend. *)
Definition frame (P : Call -> bool) (s s' : State) : Prop :=
  name (self s') = name (self s)
  /\ rdbms (self s') = rdbms (self s)
  /\ exists l, calls s' = calls s ++ l /\ forallb P l = true.

Definition respects {A : Type} (P : Call -> bool) (m : M A) : Prop :=
  forall s, frame P s (snd (m s)).

End Dispatcher.

Unset Implicit Arguments.

Arguments Driver : clear implicits.
Arguments DBConnect : clear implicits.
Arguments State : clear implicits.
Arguments M : clear implicits.

(** ** A client library to run the methods on

    One server, one connection at a time.  [refuse] is the error of a
    refused connection, if any; [statement] says what the server does
    with a statement. *)

Inductive Outcome : Type :=
  | Fails (err : Exn)
  | Affected (status : string) (n : Z)
  | Selected (status : string) (columns : list string) (tuples : list (list Value)).

Record Server : Type := {
  is_open : bool;
  last : option Outcome
}.

Definition has_no_result_set (t : DBType) : Exn :=
  match t with
  | ORACLE =>
      mkExn (LibraryOf ORACLE) InterfaceError
        "DPY-1003: the executed statement does not return rows" None
  | SQL_SERVER =>
      mkExn (LibraryOf SQL_SERVER) OperationalError
        "Statement not executed or executed statement has no resultset" None
  | POSTGRESQL =>
      mkExn (LibraryOf POSTGRESQL) ProgrammingError "no results to fetch" None
  | MYSQL => mkExn (LibraryOf MYSQL) ProgrammingError "no result set" None
  end.

Definition server (refuse : option Exn) (statement : string -> Outcome)
  : Driver Server unit unit :=
  {| native_connect := fun _ w =>
       match refuse with
       | Some err => (Exc err, w)
       | None => (Ok tt, {| is_open := true; last := None |})
       end;
     conn_is_healthy := fun _ w => (Ok (is_open w), w);
     conn_connected := fun _ w =>
       if is_open w then (Ok true, w)
       else (Exc (mkExn (LibraryOf SQL_SERVER) InterfaceError
                    "Connection is closed." None), w);
     conn_closed := fun _ w => (Ok (if is_open w then 0%Z else 1%Z), w);
     conn_open := fun _ w => (Ok (if is_open w then 1%Z else 0%Z), w);
     conn_close := fun _ _ w => (Ok tt, {| is_open := false; last := last w |});
     conn_cursor := fun _ _ w => (Ok tt, w);
     cur_execute := fun _ _ sql w =>
       match statement sql with
       | Fails err => (Exc err, w)
       | Affected st n =>
           (Ok n, {| is_open := is_open w; last := Some (Affected st n) |})
       | Selected st cols tuples =>
           (Ok (Z.of_nat (List.length tuples)),
            {| is_open := is_open w; last := Some (Selected st cols tuples) |})
       end;
     cur_fetchall_tuples := fun _ w =>
       match last w with
       | Some (Selected _ _ tuples) => (Ok tuples, w)
       | _ => (Exc (has_no_result_set ORACLE), w)
       end;
     cur_fetchall := fun t _ w =>
       match last w with
       | Some (Selected _ cols tuples) =>
           (Ok (map (fun args => dict (zip cols args)) tuples), w)
       | _ =>
           match t with
           | MYSQL => (Ok [], w)
           | _ => (Exc (has_no_result_set t), w)
           end
       end;
     conn_commit := fun _ _ w => (Ok tt, w);
     cur_description := fun _ w =>
       match last w with
       | Some (Selected _ cols _) => Some cols
       | _ => None
       end;
     cur_rowcount := fun _ _ w =>
       match last w with
       | Some (Affected _ n) => n
       | Some (Selected _ _ tuples) => Z.of_nat (List.length tuples)
       | _ => (-1)%Z
       end;
     cur_statusmessage := fun _ w =>
       match last w with
       | Some (Affected st _) => st
       | Some (Selected st _ _) => st
       | _ => ""
       end |}.

(** A [DBConnect] object for backend [t], with or without a connection,
    on a server where the connection is open or not. *)
Definition object (t : DBType) (c : option unit) (opened : bool)
  : State Server unit :=
  {| self := {| name := "reporting"; rdbms := DBType_value t;
                connection := c; lastResult := None |};
     world := {| is_open := opened; last := None |};
     output := [];
     calls := [] |}.

(** The statements the server of the examples knows. *)
Definition statements (sql : string) : Outcome :=
  if sql =? "UPDATE t SET x = 1" then Affected "UPDATE 3" 3
  else if sql =? "SELECT id FROM t WHERE 1 = 0" then Selected "SELECT 0" ["id"] []
  else if sql =? "SELECT id, nm FROM t" then
    Selected "SELECT 2" ["id"; "nm"] [[VInt 1; VStr "a"]; [VInt 2; VStr "b"]]
  else Fails (mkExn (LibraryOf ORACLE) DatabaseError
                "ORA-00942: table or view does not exist" None).

Definition refused (t : DBType) : Exn :=
  mkExn (LibraryOf t) OperationalError "connection refused" None.

(** ** Further vocabulary for the properties *)

Definition not_CallCommit (c : Call) : bool :=
  match c with CallCommit _ => false | _ => true end.

Definition not_CallClose (c : Call) : bool :=
  match c with CallClose _ => false | _ => true end.

(** Calls of the statement itself: cursor, execute, fetchall. *)
Definition is_statement_call (c : Call) : bool :=
  match c with
  | CallCursor _ | CallExecute _ _ | CallFetchall _ => true
  | _ => false
  end.

(** [connDetails['rdbms']] is none of the four values of [DBType]. *)
Definition unknown_backend (rd : string) : Prop :=
  forall t, rd <> DBType_value t.

(** The message of the [ValueError] of [connect] (line 158). *)
Definition cannot_connect (rd : string) : Exn :=
  mkExn Builtins ValueError
    ("Unknown database type " ++ rd ++ " - cannot establish a connection!") None.

(** The [AttributeError] of [self.connection.cursor()] on [None]. *)
Definition no_cursor_on_None : Exn :=
  mkExn Builtins AttributeError "'NoneType' object has no attribute 'cursor'" None.

(** The calls of [disconnect]: the probe of [status] and the close. *)
Definition is_probe_or_close (c : Call) : bool :=
  match c with
  | CallIsHealthy | CallConnected | CallClosed | CallOpen | CallClose _ => true
  | _ => false
  end.

(** A statement that creates a table from a query: PostgreSQL's command
    tag for it is [SELECT n], with [n] the rows copied, and there is no
    result set. *)
Definition ddl_statements (sql : string) : Outcome :=
  if sql =? "CREATE TABLE t2 AS SELECT * FROM t" then Affected "SELECT 3" 3
  else Fails (mkExn (LibraryOf POSTGRESQL) ProgrammingError
                "syntax error" None).

(** A join whose two tables both have a column [id]. *)
Definition join_statements (sql : string) : Outcome :=
  if sql =? "SELECT a.id, b.id FROM a JOIN b ON a.id = b.ref" then
    Selected "SELECT 2" ["id"; "id"] [[VInt 1; VInt 7]; [VInt 2; VInt 9]]
  else Fails (mkExn (LibraryOf ORACLE) DatabaseError
                "ORA-00942: table or view does not exist" None).

(** Calls that are neither a commit nor a close. *)
Definition before_commit (c : Call) : bool := not_CallCommit c && not_CallClose c.

Definition no_call (c : Call) : bool := false.

(** Calls in the order of a statement run: first calls that are neither
    commit nor close, then at most one commit, then only probes and
    closes. *)
Definition in_order (l : list Call) : Prop :=
  exists early mid late,
    l = early ++ mid ++ late
    /\ forallb before_commit early = true
    /\ (mid = [] \/ exists t, mid = [CallCommit t])
    /\ forallb is_probe_or_close late = true.

Section Keeping.

Variables World Conn : Type.

(** A method leaves the attribute [f] of the object as it was. *)
Definition keeps {T A : Type} (f : DBConnect Conn -> T) (m : M World Conn A) : Prop :=
  forall s, f (self (snd (m s))) = f (self s).

(** The calls a method adds are in the order of a statement run. *)
Definition ordered {A : Type} (m : M World Conn A) : Prop :=
  forall s, exists l, calls (snd (m s)) = calls s ++ l /\ in_order l.

End Keeping.

(** An object whose configuration names a backend the class does not know. *)
Definition stranger (c : option unit) : State Server unit :=
  {| self := {| name := "archive"; rdbms := "sqlite";
                connection := c; lastResult := None |};
     world := {| is_open := true; last := None |};
     output := [];
     calls := [] |}.

(** The server of the examples, with a [close()] that always fails. *)
Definition stubborn (err : Exn) : Driver Server unit unit :=
  let d := server None statements in
  {| native_connect := native_connect d;
     conn_is_healthy := conn_is_healthy d;
     conn_connected := conn_connected d;
     conn_closed := conn_closed d;
     conn_open := conn_open d;
     conn_close := fun _ _ w => (Exc err, w);
     conn_cursor := conn_cursor d;
     cur_execute := cur_execute d;
     cur_fetchall_tuples := cur_fetchall_tuples d;
     cur_fetchall := cur_fetchall d;
     conn_commit := conn_commit d;
     cur_description := cur_description d;
     cur_rowcount := cur_rowcount d;
     cur_statusmessage := cur_statusmessage d |}.

(** A frame for the examples: the number of rows of the result. *)
Definition row_count (r : Results) : result nat :=
  match r with
  | RList rows => Ok (List.length rows)
  | ROne _ => Ok 1%nat
  end.

(** ** [flush] and [makeDataFrame]

    [pd.DataFrame.from_records] is outside the repository: [from_records]
    stands for it.  The object is the dispatcher state with the
    [dataFrame] attribute beside it. *)

Section DataFrame.

Variables World Conn Frame : Type.
Variable from_records : Results -> result Frame.

Record Facade : Type := {
  dispatcher : State World Conn;
  dataFrame : option Frame
}.

(** [self.lastResult = None] *)
Definition clear_lastResult (s : State World Conn) : State World Conn :=
  {| self := {| name := name (self s); rdbms := rdbms (self s);
                connection := connection (self s);
                lastResult := None |};
     world := world s; output := output s; calls := calls s |}.

Definition flush (o : Facade) : Facade :=
  {| dispatcher := clear_lastResult (dispatcher o); dataFrame := None |}.

Definition makeDataFrame (o : Facade) : result Frame * Facade :=
  match lastResult (self (dispatcher o)) with
  | Some r =>
      match from_records r with
      | Ok frame => (Ok frame, {| dispatcher := dispatcher o; dataFrame := Some frame |})
      | Exc e => (Exc e, o)
      end
  | None =>
      (Exc (mkExn Builtins ValueError
              "Cannot create DataFrame, no SQL statement has been executed by this object."
              None), o)
  end.

(** A method of the dispatcher, run on the whole object: [dataFrame] is
    not touched. *)
Definition on_dispatcher {A : Type} (m : M World Conn A) (o : Facade)
  : result A * Facade :=
  let (r, s') := m (dispatcher o) in
  (r, {| dispatcher := s'; dataFrame := dataFrame o |}).

End DataFrame.

Arguments Facade : clear implicits.
Arguments dispatcher {World Conn Frame} f.
Arguments dataFrame {World Conn Frame} f.
Arguments clear_lastResult {World Conn} s.
Arguments flush {World Conn Frame} o.
Arguments makeDataFrame {World Conn Frame} from_records o.
Arguments on_dispatcher {World Conn Frame A} m o.
Arguments keeps {World Conn T A} f m.
Arguments ordered {World Conn A} m.

(** ** The configuration file: [_getDetails] and [encryptConfigFile]

    [json.load], [open] and [Fernet] are outside the repository.  A file
    system maps a path to the JSON array of objects a readable
    configuration file holds; the cipher is a parameter. *)

Module Config.

Inductive Json : Type :=
  | JNull
  | JBool (b : bool)
  | JNum (z : Z)
  | JStr (s : string)
  | JArray (items : list Json)
  | JObject (members : list (string * Json)).

(** One connection entry: a [dict] loaded from a JSON object. *)
Definition Entry : Type := list (string * Json).

(** Python's truth value of a loaded JSON value. *)
Definition truthy (j : Json) : bool :=
  match j with
  | JNull => false
  | JBool b => b
  | JNum z => negb (z =? 0)%Z
  | JStr s => negb (s =? "")
  | JArray items => match items with [] => false | _ => true end
  | JObject members => match members with [] => false | _ => true end
  end.

(** [j == name] for a [str] [name]. *)
Definition equals_str (j : Json) (name : string) : bool :=
  match j with
  | JStr s => s =? name
  | _ => false
  end.

(** [entry[key]], [None] where Python raises [KeyError]. *)
Fixpoint get (key : string) (entry : Entry) : option Json :=
  match entry with
  | [] => None
  | (k, v) :: rest => if key =? k then Some v else get key rest
  end.

(** [entry[key] = v] *)
Fixpoint set (key : string) (v : Json) (entry : Entry) : Entry :=
  match entry with
  | [] => [(key, v)]
  | (k, v') :: rest =>
      if key =? k then (k, v) :: rest else (k, v') :: set key v rest
  end.

Inductive Error : Type :=
  | KeyError (key : string)
  | ValueError (msg : string)
  | AttributeError (msg : string)
  | TypeError (msg : string)
  | InvalidToken
  | FileNotFoundError (path : string).

Inductive outcome (A : Type) : Type :=
  | Returns (a : A)
  | Raises (e : Error).
Arguments Returns {A} a.
Arguments Raises {A} e.

Definition Files : Type := string -> option (list Entry).

(** [json.dump(entries, open(path, 'w'))] *)
Definition write (path : string) (entries : list Entry) (fs : Files) : Files :=
  fun q => if q =? path then Some entries else fs q.

(** [s[:-n]] for a positive [n]. *)
Definition drop_last (n : nat) (s : string) : string :=
  substring 0 (String.length s - n) s.

(** The loop of [_getDetails] (lines 431-434): the first entry whose
    ["active"] is true and whose ["connection-name"] is [name]; the name
    is looked up only in an active entry. *)
Fixpoint first_active (name : string) (connectionEntries : list Entry)
  : outcome Entry :=
  match connectionEntries with
  | [] =>
      Raises (ValueError ("Unable to find active connection " ++ name
                          ++ " in JSON config file"))
  | entry :: rest =>
      match get "active" entry with
      | None => Raises (KeyError "active")
      | Some active =>
          if truthy active then
            match get "connection-name" entry with
            | None => Raises (KeyError "connection-name")
            | Some n =>
                if equals_str n name then Returns entry
                else first_active name rest
            end
          else first_active name rest
      end
  end.

(** [first_active] passes over this entry. *)
Definition passed_over (name : string) (entry : Entry) : Prop :=
  exists active,
    get "active" entry = Some active
    /\ (truthy active = false
        \/ exists n, get "connection-name" entry = Some n
                     /\ equals_str n name = false).

(** [first_active] returns this entry. *)
Definition selected (name : string) (entry : Entry) : Prop :=
  exists active n,
    get "active" entry = Some active /\ truthy active = true
    /\ get "connection-name" entry = Some n /\ equals_str n name = true.

Section Files.

(** [os.path.abspath(os.path.join('config', 'database-config.json'))] *)
Variable default_config : string.

(** [Fernet(eKey)] accepts the key; [Fernet(eKey).encrypt(p)] for the
    [i]-th call of a run (each call draws its own time stamp and IV). *)
Variable valid_key : string -> bool.
Variable encrypt : string -> nat -> string -> string.

(** [_getDetails] reads [default_config], whatever [self.configFile] is. *)
Definition _getDetails (name : string) (fs : Files) : outcome Entry :=
  match fs default_config with
  | None => Raises (FileNotFoundError default_config)
  | Some connectionEntries => first_active name connectionEntries
  end.

(** The loop of [encryptConfigFile] (lines 60-61), from the [i]-th
    encryption on. *)
Fixpoint encrypt_entries (eKey : string) (i : nat) (connectionEntries : list Entry)
  : outcome (list Entry) :=
  match connectionEntries with
  | [] => Returns []
  | entry :: rest =>
      match get "password" entry with
      | None => Raises (KeyError "password")
      | Some (JStr p) =>
          match encrypt_entries eKey (S i) rest with
          | Returns rest' =>
              Returns (set "password" (JStr (encrypt eKey i p)) entry :: rest')
          | Raises e => Raises e
          end
      | Some _ => Raises (AttributeError "encode")
      end
  end.

Definition encryptConfigFile (eKey configFile : string) (fs : Files)
  : outcome unit * Files :=
  if valid_key eKey then
    match fs configFile with
    | None => (Raises (FileNotFoundError configFile), fs)
    | Some connectionEntries =>
        match encrypt_entries eKey 0 connectionEntries with
        | Raises e => (Raises e, fs)
        | Returns encrypted =>
            (Returns tt, write (drop_last 15 configFile ++ ".json") encrypted fs)
        end
    end
  else
    (Raises (ValueError "Fernet key must be 32 url-safe base64-encoded bytes."), fs).

(** [Fernet(eKey).decrypt(token)], [None] where it raises [InvalidToken]. *)
Variable decrypt : string -> string -> option string.

(** [self.dKey.decrypt(self.connDetails["password"]).decode()], the
    password each [_xConnection] hands to the library. *)
Definition password_of (eKey : string) (connDetails : Entry) : outcome string :=
  match get "password" connDetails with
  | None => Raises (KeyError "password")
  | Some (JStr token) =>
      match decrypt eKey token with
      | Some p => Returns p
      | None => Raises InvalidToken
      end
  | Some _ => Raises (TypeError "token must be bytes or str")
  end.

(** An entry after the encryption of its password [p] as the [i]-th. *)
Definition encrypted_as (eKey : string) (i : nat) (before after : Entry) : Prop :=
  exists p,
    get "password" before = Some (JStr p)
    /\ after = set "password" (JStr (encrypt eKey i p)) before.

End Files.

(** A configuration of two entries named [reporting], the first
    inactive. *)
Definition reporting_off : Entry :=
  [("connection-name", JStr "reporting"); ("rdbms", JStr "mysql");
   ("active", JBool false); ("password", JStr "old")].

Definition reporting_on : Entry :=
  [("connection-name", JStr "reporting"); ("rdbms", JStr "mysql");
   ("active", JBool true); ("password", JStr "secret")].

Definition sample_files : Files :=
  fun q =>
    if q =? "/srv/config/database-config-plaintext.json"
    then Some [reporting_off; reporting_on]
    else None.

(** A cipher for the examples: the token is the key, a colon and the
    plain text. *)
Definition sample_encrypt (eKey : string) (i : nat) (p : string) : string :=
  eKey ++ ":" ++ p.

Definition sample_decrypt (eKey token : string) : option string :=
  if prefix (eKey ++ ":") token
  then Some (substring (String.length eKey + 1)
                       (String.length token - (String.length eKey + 1)) token)
  else None.

End Config.

(** * Properties *)

Section Properties.

Variables World Conn Cursor : Type.
Variable drv : Driver World Conn Cursor.

Abbreviation St := (State World Conn).
Abbreviation Mo := (M World Conn).

(** ** The monad *)

Lemma bind_ok {A B : Type} (m : Mo A) (f : A -> Mo B) (s s' : St) (a : A) :
  m s = (Ok a, s') -> bind m f s = f a s'.
Proof. intros H. unfold bind. now rewrite H. Qed.

Lemma bind_exc {A B : Type} (m : Mo A) (f : A -> Mo B) (s s' : St) (e : Exn) :
  m s = (Exc e, s') -> bind m f s = (Exc e, s').
Proof. intros H. unfold bind. now rewrite H. Qed.

Lemma bind_inv_ok {A B : Type} (m : Mo A) (f : A -> Mo B) (s s' : St) (b : B) :
  bind m f s = (Ok b, s') ->
  exists a s1, m s = (Ok a, s1) /\ f a s1 = (Ok b, s').
Proof.
  unfold bind. destruct (m s) as [[a | e] s1]; intros H.
  - now exists a, s1.
  - discriminate.
Qed.

Lemma try_ok {A : Type} (m : Mo A) C h (s s' : St) (a : A) :
  m s = (Ok a, s') -> try_except m C h s = (Ok a, s').
Proof. intros H. unfold try_except. now rewrite H. Qed.

Lemma try_caught {A : Type} (m : Mo A) C h (s s' : St) (e : Exn) :
  m s = (Exc e, s') -> C e = true -> try_except m C h s = h e s'.
Proof. intros H HC. unfold try_except. now rewrite H, HC. Qed.

Lemma try_passed {A : Type} (m : Mo A) C h (s s' : St) (e : Exn) :
  m s = (Exc e, s') -> C e = false -> try_except m C h s = (Exc e, s').
Proof. intros H HC. unfold try_except. now rewrite H, HC. Qed.

Lemma try_inv_ok {A : Type} (m : Mo A) C h (s s' : St) (a : A) :
  try_except m C h s = (Ok a, s') ->
  m s = (Ok a, s')
  \/ exists e s1, m s = (Exc e, s1) /\ C e = true /\ h e s1 = (Ok a, s').
Proof.
  unfold try_except. destruct (m s) as [[x | e] s1]; intros H.
  - now left.
  - destruct (C e) eqn:HC; [right; now exists e, s1 | discriminate].
Qed.

Lemma reraise_never_returns {A : Type} t what err (s s' : St) (a : A) :
  reraise t what err s <> (Ok a, s').
Proof. unfold reraise, bind, get_self, emit, raise. discriminate. Qed.

Lemma surjective_run {A : Type} (m : Mo A) (s : St) :
  m s = (fst (m s), snd (m s)).
Proof. now destruct (m s). Qed.

(** ** The backend of an object *)

Lemma DBType_value_inj (a b : DBType) : DBType_value a = DBType_value b -> a = b.
Proof. destruct a, b; simpl; intros H; try reflexivity; discriminate. Qed.

Ltac backend t H :=
  destruct t; simpl in H; rewrite H; simpl.

Ltac run :=
  unfold bind, ret, raise, try_except, get_self, get_world, emit, call,
    set_connection, set_lastResult, when; simpl.

(** ** [status] *)

Lemma status_without_connection (s : St) :
  connection (self s) = None -> status drv s = (Ok false, s).
Proof. intros H. unfold status, bind, get_self. now rewrite H. Qed.

Lemma status_not_alive (t : DBType) (c : Conn) (s : St) :
  rdbms (self s) = DBType_value t ->
  connection (self s) = Some c ->
  reports_not_alive drv t c (world s) ->
  fst (status drv s) = Ok false.
Proof.
  intros Hrd Hc Hna. unfold status, bind, get_self. rewrite Hc.
  backend t Hrd; run; unfold reports_not_alive in Hna.
  - destruct (conn_is_healthy drv c (world s)) as [[[] | e] w]; simpl in *;
      destruct Hna as [H | (e' & H & He)]; try discriminate; try reflexivity.
    injection H as <-. now rewrite He.
  - destruct (conn_connected drv c (world s)) as [[[] | e] w]; simpl in *;
      destruct Hna as [H | (e' & H & He)]; try discriminate; try reflexivity.
    injection H as <-. now rewrite He.
  - destruct (conn_closed drv c (world s)) as [[z | e] w]; simpl in *;
      destruct Hna as (z' & H & Hz); try discriminate.
    injection H as <-. destruct (Z.eqb_spec z 0); [contradiction | reflexivity].
  - destruct (conn_open drv c (world s)) as [[z | e] w]; simpl in *;
      destruct Hna as (z' & H & Hz); try discriminate.
    injection H as <-. destruct (Z.eqb_spec z 1); [contradiction | reflexivity].
Qed.

(** What a returning [status] has done: probed, and nothing else to
    the object or the world. *)
Lemma status_returns (t : DBType) (c : Conn) (s s' : St) (alive : bool) :
  rdbms (self s) = DBType_value t ->
  connection (self s) = Some c ->
  status drv s = (Ok alive, s') ->
  self s' = self s
  /\ world s' = probe_world drv t c (world s)
  /\ (alive = false -> reports_not_alive drv t c (world s)).
Proof.
  intros Hrd Hc. unfold status, bind, get_self. rewrite Hc.
  backend t Hrd; run; unfold reports_not_alive.
  - destruct (conn_is_healthy drv c (world s)) as [[[] | e] w] eqn:E; simpl.
    + intros [= <- <-]. simpl. repeat split. discriminate.
    + intros [= <- <-]. simpl. repeat split. now left.
    + destruct (is_DatabaseError ORACLE e) eqn:He; [| discriminate].
      intros [= <- <-]. simpl. repeat split. intros _. right. now exists e.
  - destruct (conn_connected drv c (world s)) as [[b | e] w] eqn:E; simpl.
    + intros [= <- <-]. simpl. repeat split. intros ->. now left.
    + destruct (is_InterfaceError SQL_SERVER e) eqn:He; [| discriminate].
      intros [= <- <-]. simpl. repeat split. intros _. right. now exists e.
  - destruct (conn_closed drv c (world s)) as [[z | e] w] eqn:E; simpl;
      [| discriminate].
    destruct (Z.eqb_spec z 0); simpl; intros [= <- <-]; simpl; repeat split.
    + discriminate.
    + intros _. now exists z.
  - destruct (conn_open drv c (world s)) as [[z | e] w] eqn:E; simpl;
      [| discriminate].
    destruct (Z.eqb_spec z 1); simpl; intros [= <- <-]; simpl; repeat split.
    + discriminate.
    + intros _. now exists z.
Qed.

(** [lastResult] plays no part in [status]. *)
Lemma status_after_set_lastResult (r : Results) (s : St) :
  fst (status drv (snd (set_lastResult r s))) = fst (status drv s).
Proof.
  unfold status, bind, get_self, set_lastResult. simpl.
  destruct (connection (self s)) as [c |]; [| reflexivity].
  repeat match goal with
         | |- context [if ?b then _ else _] => destruct b
         end; run;
    repeat match goal with
           | |- context [match ?f drv c (world s) with _ => _ end] =>
               destruct (f drv c (world s)) as [[? | ?] ?]; simpl
           | |- context [if ?b then _ else _] => destruct b; simpl
           end; reflexivity.
Qed.

(** ** Which calls a method makes *)

Lemma frame_refl P (s : St) : frame P s s.
Proof. repeat split. exists []. now rewrite app_nil_r. Qed.

Lemma frame_trans P (s s1 s2 : St) :
  frame P s s1 -> frame P s1 s2 -> frame P s s2.
Proof.
  intros (Hn & Hr & l & Hl & HP) (Hn' & Hr' & l' & Hl' & HP').
  repeat split; try congruence.
  exists (l ++ l'). split.
  - now rewrite Hl', Hl, app_assoc.
  - rewrite forallb_app. now rewrite HP, HP'.
Qed.

Lemma frame_weaken (P Q : Call -> bool) (s s' : St) :
  (forall c, P c = true -> Q c = true) -> frame P s s' -> frame Q s s'.
Proof.
  intros HPQ (Hn & Hr & l & Hl & HP). repeat split; trivial.
  exists l. split; trivial.
  rewrite forallb_forall in *. auto.
Qed.

Lemma respects_weaken {A : Type} (P Q : Call -> bool) (m : Mo A) :
  (forall c, P c = true -> Q c = true) -> respects P m -> respects Q m.
Proof. intros HPQ H s. eapply frame_weaken; eauto. Qed.

Lemma respects_ret {A : Type} P (a : A) : respects P (ret a : Mo A).
Proof. intros s. apply frame_refl. Qed.

Lemma respects_raise {A : Type} P e : respects P (raise e : Mo A).
Proof. intros s. apply frame_refl. Qed.

Lemma respects_get_self P : respects P (@get_self World Conn).
Proof. intros s. apply frame_refl. Qed.

Lemma respects_get_world P : respects P (@get_world World Conn).
Proof. intros s. apply frame_refl. Qed.

Lemma respects_emit P o : respects P (emit o : Mo _).
Proof. intros s. repeat split. exists []. simpl. now rewrite app_nil_r. Qed.

Lemma respects_set_connection P c : respects P (set_connection c : Mo _).
Proof. intros s. repeat split. exists []. simpl. now rewrite app_nil_r. Qed.

Lemma respects_set_lastResult P r : respects P (set_lastResult r : Mo _).
Proof. intros s. repeat split. exists []. simpl. now rewrite app_nil_r. Qed.

Lemma respects_call {A : Type} (P : Call -> bool) c
      (f : World -> result A * World) :
  P c = true -> respects P (call c f : Mo A).
Proof.
  intros HP s. unfold call. destruct (f (world s)) as [r w]. simpl.
  repeat split. exists [c]. simpl. now rewrite HP.
Qed.

Lemma respects_bind {A B : Type} P (m : Mo A) (f : A -> Mo B) :
  respects P m -> (forall a, respects P (f a)) -> respects P (bind m f).
Proof.
  intros Hm Hf s. unfold bind. specialize (Hm s).
  destruct (m s) as [[a | e] s1]; simpl in *; trivial.
  eapply frame_trans; [exact Hm | apply Hf].
Qed.

Lemma respects_try {A : Type} P (m : Mo A) C (h : Exn -> Mo A) :
  respects P m -> (forall e, respects P (h e)) -> respects P (try_except m C h).
Proof.
  intros Hm Hh s. unfold try_except. specialize (Hm s).
  destruct (m s) as [[a | e] s1]; simpl in *; trivial.
  destruct (C e); simpl; trivial.
  eapply frame_trans; [exact Hm | apply Hh].
Qed.

Ltac frames_with known :=
  repeat first
    [ known
    | apply respects_ret | apply respects_raise
    | apply respects_get_self | apply respects_get_world
    | apply respects_emit | apply respects_set_connection
    | apply respects_set_lastResult
    | apply respects_call; reflexivity
    | apply respects_bind; [| intros ?]
    | apply respects_try; [| intros ?]
    | match goal with
      | |- respects _ (if ?b then _ else _) => destruct b
      | |- respects _ (match ?x with _ => _ end) => destruct x
      end ].

Ltac frames := frames_with fail.

Lemma the_connection_respects P attr : respects P (the_connection attr : Mo Conn).
Proof. unfold the_connection. frames. Qed.

Lemma status_respects : respects is_probe (status drv).
Proof. unfold status. frames. Qed.

Lemma connect_respects : respects is_CallConnect (connect drv).
Proof.
  unfold connect, _oracleConnection, _sqlServerConnection, _pgConnection,
    _mySqlConnection.
  frames.
Qed.

Lemma disconnect_respects : respects is_closing (disconnect drv).
Proof.
  unfold disconnect, close_connection. apply respects_bind.
  - eapply respects_weaken; [| apply status_respects]. now intros [].
  - intros alive. frames_with ltac:(apply the_connection_respects).
Qed.

Lemma commit_and_kill_respects t commit kill :
  respects is_closing (commit_and_kill drv t commit kill).
Proof.
  unfold commit_and_kill, when.
  frames_with ltac:(first [apply the_connection_respects | apply disconnect_respects]).
Qed.

Lemma reraise_respects {A : Type} P t what err :
  respects P (reraise t what err : Mo A).
Proof. unfold reraise. frames. Qed.

Lemma run_statement_respects sql commit kill :
  respects not_CallConnect (run_statement drv sql commit kill).
Proof.
  assert (Hck : forall t, respects not_CallConnect (commit_and_kill drv t commit kill)).
  { intros t. eapply respects_weaken; [| apply commit_and_kill_respects].
    now intros []. }
  unfold run_statement, runSql_oracle, runSql_sqlserver, runSql_postgresql,
    runSql_mysql, open_cursor, execute, fetch, fetch_tuples.
  frames_with
    ltac:(first [apply the_connection_respects | apply Hck | apply reraise_respects]).
Qed.

Lemma finish_respects P one results : respects P (finish one results : Mo _).
Proof. unfold finish. frames. Qed.

Lemma ensure_connected_respects : respects any_call (ensure_connected drv).
Proof.
  unfold ensure_connected, when.
  frames_with ltac:(first
    [ eapply respects_weaken; [| apply status_respects]; reflexivity
    | eapply respects_weaken; [| apply connect_respects]; reflexivity ]).
Qed.

Lemma ensure_connected_backend (s s1 : St) r :
  ensure_connected drv s = (r, s1) -> rdbms (self s1) = rdbms (self s).
Proof.
  intros H. pose proof (ensure_connected_respects s) as (_ & Hr & _).
  now rewrite H in Hr.
Qed.

(** The [if]/[elif] chain of [runSql] on the four known backends. *)
Lemma run_statement_backend (t : DBType) sql commit kill (s : St) :
  rdbms (self s) = DBType_value t ->
  run_statement drv sql commit kill s
  = match t with
    | ORACLE => runSql_oracle drv sql commit kill s
    | SQL_SERVER => runSql_sqlserver drv sql commit kill s
    | POSTGRESQL => runSql_postgresql drv sql commit kill s
    | MYSQL => runSql_mysql drv sql commit kill s
    end.
Proof.
  intros Hrd. unfold run_statement, bind at 1, get_self.
  destruct t; simpl in Hrd; rewrite Hrd; reflexivity.
Qed.

Lemma finish_single one row (s : St) :
  fst (finish one [row] s) = Ok (single one row).
Proof. destruct one; reflexivity. Qed.

Lemma finish_list results (s : St) :
  fst (finish false results s) = Ok (RList results).
Proof. reflexivity. Qed.

Lemma frame_of_run {A : Type} P (m : Mo A) (s s' : St) r :
  respects P m -> m s = (r, s') -> frame P s s'.
Proof. intros Hm H. specialize (Hm s). now rewrite H in Hm. Qed.

(** ** Dictionaries *)

Lemma dict_set_fresh k v (d : Row) :
  ~ In k (keys d) -> dict_set k v d = d ++ [(k, v)].
Proof.
  induction d as [| [k' v'] d IH]; simpl; intros Hk; [reflexivity |].
  destruct (String.eqb_spec k k') as [-> | _].
  - exfalso. apply Hk. now left.
  - rewrite IH; [reflexivity |]. intros Hin. apply Hk. now right.
Qed.



Lemma keys_combine (columns : list string) (args : list Value) :
  List.length args = List.length columns -> keys (combine columns args) = columns.
Proof.
  revert args. induction columns as [| c columns IH]; intros [| a args]; simpl;
    intros H; try reflexivity; try discriminate.
  f_equal. apply IH. now injection H.
Qed.







(** ** [status] and [connect] *)

(** C8: [status()] is false when there is no connection object, and
    then nothing is called and nothing changes; it is false, and not an
    exception, when the probe of the backend reports the connection not
    alive, which includes SQL Server's probe raising [InterfaceError]. *)
Theorem status_false_when_not_alive (s : St) :
  connection (self s) = None
  \/ (exists t c, rdbms (self s) = DBType_value t
                  /\ connection (self s) = Some c
                  /\ reports_not_alive drv t c (world s)) ->
  fst (status drv s) = Ok false
  /\ (connection (self s) = None -> status drv s = (Ok false, s)).
Proof.
  intros [HNone | (t & c & Hrd & Hc & Hna)].
  - split; [| intros _]; now rewrite status_without_connection.
  - split.
    + eapply status_not_alive; eauto.
    + rewrite Hc. discriminate.
Qed.

(** C6, as the code has it: when the library refuses the connection
    with an exception that is an instance of its [DatabaseError], the
    class the handlers catch, [connect] returns normally, the error is
    logged, the object's [connection] is [None] and [status()] is
    false. *)
Theorem connect_failure_is_swallowed (t : DBType) (s : St) (err : Exn) (w' : World) :
  rdbms (self s) = DBType_value t ->
  native_connect drv t (world s) = (Exc err, w') ->
  is_DatabaseError t err = true ->
  exists s',
    connect drv s = (Ok tt, s')
    /\ connection (self s') = None
    /\ (In (logging_error err) (output s') \/ In (logging_exception err) (output s'))
    /\ status drv s' = (Ok false, s').
Proof.
  intros Hrd Hnc Hdb. unfold connect, bind at 1, get_self at 1.
  backend t Hrd;
    unfold _oracleConnection, _sqlServerConnection, _pgConnection, _mySqlConnection;
    run; rewrite Hnc; simpl; rewrite Hdb; simpl;
    eexists; (split; [reflexivity |]); simpl;
    (split; [reflexivity |]);
    (split; [| now apply status_without_connection]);
    rewrite !in_app_iff; simpl; intuition.
Qed.

(** ** [runSql] *)

(** C10: after a [runSql] that returns, [lastResult] is the value
    returned: under [one] the first row of the statement's results,
    otherwise the list of them. *)
Theorem runSql_stores_what_it_returns sql one commit kill (s s' : St) r :
  runSql drv sql one commit kill s = (Ok r, s') ->
  lastResult (self s') = Some r
  /\ exists s1 s2 results,
       ensure_connected drv s = (Ok tt, s1)
       /\ run_statement drv sql commit kill s1 = (Ok results, s2)
       /\ (one = true -> exists row rest, results = row :: rest /\ r = ROne row)
       /\ (one = false -> r = RList results).
Proof.
  unfold runSql. intros H.
  apply bind_inv_ok in H as ([] & s1 & H1 & H).
  apply bind_inv_ok in H as (results & s2 & H2 & H).
  unfold finish in H.
  apply bind_inv_ok in H as (r' & s3 & H3 & H).
  revert H. run. intros [= -> <-]. simpl. split; [reflexivity |].
  exists s1, s2, results. repeat split; trivial.
  - intros ->. destruct results as [| row rest]; [discriminate |].
    injection H3 as <- _. now exists row, rest.
  - intros ->. now injection H3 as <- _.
Qed.

(** C7, as the code has it: under [one], a statement whose results are
    the empty list makes [results[0]] raise the builtin [IndexError]. *)
Theorem runSql_one_of_nothing sql commit kill (s s1 s2 : St) :
  ensure_connected drv s = (Ok tt, s1) ->
  run_statement drv sql commit kill s1 = (Ok [], s2) ->
  runSql drv sql true commit kill s
  = (Exc (mkExn Builtins IndexError "list index out of range" None), s2).
Proof.
  intros H1 H2. unfold runSql.
  erewrite bind_ok by exact H1. erewrite bind_ok by exact H2. reflexivity.
Qed.

(** C1, as the code has it: on each of the four backends, when the
    branch of the backend takes its affected-count path with the count
    [K], [runSql] returns one row, the mapping of the one key
    [Row(s) affected] to [K]: the list of it, or under [one] the row.
    On PostgreSQL that path is taken unless the status message begins
    with SELECT and the row count is positive. *)
Theorem runSql_rows_affected (t : DBType) sql one commit kill
        (s s1 s2 s3 s4 : St) (cur : Cursor) (k K : Z) :
  rdbms (self s) = DBType_value t ->
  ensure_connected drv s = (Ok tt, s1) ->
  open_cursor drv t s1 = (Ok cur, s2) ->
  execute drv t cur sql s2 = (Ok k, s3) ->
  signals_no_rows drv t cur k s3 s4 K ->
  fst (commit_and_kill drv t commit kill s4) = Ok tt ->
  fst (runSql drv sql one commit kill s)
  = Ok (if one then ROne [("Row(s) affected", VInt K)]
        else RList [[("Row(s) affected", VInt K)]]).
Proof.
  intros Hrd H1 H2 H3 Hsig Hck.
  pose proof (ensure_connected_backend _ _ _ H1) as Hrd1. rewrite Hrd in Hrd1.
  assert (H5 : commit_and_kill drv t commit kill s4
               = (Ok tt, snd (commit_and_kill drv t commit kill s4)))
    by (rewrite surjective_run, Hck; reflexivity).
  revert H5. generalize (snd (commit_and_kill drv t commit kill s4)).
  intros s5 H5.
  unfold runSql. erewrite bind_ok by exact H1.
  assert (Hrun : run_statement drv sql commit kill s1 = (Ok [rows_affected K], s5)).
  { rewrite (run_statement_backend t _ _ _ _ Hrd1).
    destruct t; simpl in Hsig.
    - destruct Hsig as (Hd & -> & ->).
      unfold runSql_oracle. erewrite bind_ok by exact H2.
      apply try_ok. erewrite bind_ok by exact H3.
      unfold bind at 1, get_world. rewrite Hd.
      unfold bind at 1, ret at 1.
      erewrite bind_ok by exact H5.
      reflexivity.
    - destruct Hsig as ((e & Hf & He) & ->).
      unfold runSql_sqlserver. erewrite bind_ok by exact H2.
      apply try_ok. erewrite bind_ok by exact H3.
      erewrite bind_ok
        by (erewrite try_caught by eassumption; reflexivity).
      erewrite bind_ok by exact H5.
      reflexivity.
    - destruct Hsig as (Hm & -> & ->).
      unfold runSql_postgresql. erewrite bind_ok by exact H2.
      apply try_ok. erewrite bind_ok by exact H3.
      unfold bind at 1, get_world. rewrite Hm.
      unfold bind at 1, ret at 1.
      erewrite bind_ok by exact H5.
      reflexivity.
    - destruct Hsig as (Hf & ->).
      unfold runSql_mysql. apply try_ok.
      erewrite bind_ok by exact H2. erewrite bind_ok by exact H3.
      erewrite bind_ok by exact Hf. simpl.
      unfold bind at 1, ret at 1.
      erewrite bind_ok by exact H5.
      reflexivity. }
  erewrite bind_ok by exact Hrun. now destruct one.
Qed.

(** C2: on PostgreSQL, unless the status message begins with SELECT
    and the row count is positive, [runSql] fetches nothing and returns
    [{'Row(s) affected': rowcount}]; a SELECT of no rows, whose row
    count is 0, is such a case and gives [{'Row(s) affected': 0}]. *)
Theorem runSql_postgresql_without_rows sql one commit kill
        (s s1 s2 s3 : St) (cur : Cursor) (k : Z) :
  rdbms (self s) = DBType_value POSTGRESQL ->
  ensure_connected drv s = (Ok tt, s1) ->
  open_cursor drv POSTGRESQL s1 = (Ok cur, s2) ->
  execute drv POSTGRESQL cur sql s2 = (Ok k, s3) ->
  substring 0 6 (cur_statusmessage drv cur (world s3)) <> "SELECT"
  \/ (cur_rowcount drv POSTGRESQL cur (world s3) <= 0)%Z ->
  fst (commit_and_kill drv POSTGRESQL commit kill s3) = Ok tt ->
  fst (runSql drv sql one commit kill s)
  = Ok (if one
        then ROne [("Row(s) affected",
                    VInt (cur_rowcount drv POSTGRESQL cur (world s3)))]
        else RList [[("Row(s) affected",
                      VInt (cur_rowcount drv POSTGRESQL cur (world s3)))]])
  /\ (cur_rowcount drv POSTGRESQL cur (world s3) = 0%Z ->
      fst (runSql drv sql one commit kill s)
      = Ok (if one then ROne [("Row(s) affected", VInt 0)]
            else RList [[("Row(s) affected", VInt 0)]]))
  /\ exists l,
       calls (snd (runSql drv sql one commit kill s)) = calls s3 ++ l
       /\ forallb not_CallFetchall l = true.
Proof.
  intros Hrd H1 H2 H3 Hno Hck.
  pose proof (ensure_connected_backend _ _ _ H1) as Hrd1. rewrite Hrd in Hrd1.
  assert (H5 : commit_and_kill drv POSTGRESQL commit kill s3
               = (Ok tt, snd (commit_and_kill drv POSTGRESQL commit kill s3)))
    by (rewrite surjective_run, Hck; reflexivity).
  revert H5. generalize (snd (commit_and_kill drv POSTGRESQL commit kill s3)).
  intros s5 H5.
  assert (Hsel : pg_selected_rows drv cur (world s3) = false).
  { unfold pg_selected_rows. destruct Hno as [Hm | Hn].
    - apply String.eqb_neq in Hm. now rewrite Hm.
    - apply andb_false_iff. right. rewrite Z.gtb_ltb. now apply Z.ltb_ge. }
  assert (Hrun : run_statement drv sql commit kill s1
                 = (Ok [rows_affected (cur_rowcount drv POSTGRESQL cur (world s3))], s5)).
  { rewrite (run_statement_backend POSTGRESQL _ _ _ _ Hrd1).
    unfold runSql_postgresql. erewrite bind_ok by exact H2.
    apply try_ok. erewrite bind_ok by exact H3.
    unfold bind at 1, get_world. rewrite Hsel.
    unfold bind at 1, ret at 1.
    erewrite bind_ok by exact H5. reflexivity. }
  unfold runSql. erewrite bind_ok by exact H1. erewrite bind_ok by exact Hrun.
  split; [now destruct one |].
  split; [intros <-; now destruct one |].
  assert (F : frame not_CallFetchall s3 (snd (finish one
                [rows_affected (cur_rowcount drv POSTGRESQL cur (world s3))] s5))).
  { eapply frame_trans.
    - eapply frame_weaken; [| eapply frame_of_run;
                                [apply commit_and_kill_respects | exact H5]].
      now intros [].
    - apply finish_respects. }
  destruct F as (_ & _ & l & Hl & HP). now exists l.
Qed.


(** C5: on each backend, when [cur.execute(sql)] raises a
    [DatabaseError] of the backend's library, [runSql] logs it and
    raises a [DatabaseError] of that library whose [__context__] is the
    native error, message and all. *)
Theorem runSql_statement_error (t : DBType) sql one commit kill
        (s s1 s2 s3 : St) (cur : Cursor) (err : Exn) :
  rdbms (self s) = DBType_value t ->
  ensure_connected drv s = (Ok tt, s1) ->
  open_cursor drv t s1 = (Ok cur, s2) ->
  execute drv t cur sql s2 = (Exc err, s3) ->
  is_DatabaseError t err = true ->
  exists e,
    fst (runSql drv sql one commit kill s) = Exc e
    /\ exn_lib e = LibraryOf t
    /\ exn_cls e = DatabaseError
    /\ exn_msg e = ("Unable to execute SQL statement using " ++ backend_label t
                     ++ " connection " ++ name (self s))%string
    /\ (exists wrapped, exn_context e = Some wrapped
                        /\ wrapped = err /\ exn_msg wrapped = exn_msg err)
    /\ In (logging_error err) (output (snd (runSql drv sql one commit kill s))).
Proof.
  intros Hrd H1 H2 H3 Hdb.
  pose proof (ensure_connected_backend _ _ _ H1) as Hrd1. rewrite Hrd in Hrd1.
  assert (Hn3 : name (self s3) = name (self s)).
  { pose proof (ensure_connected_respects s) as (Hn1 & _). rewrite H1 in Hn1.
    assert (F2 : frame any_call s1 s2).
    { eapply frame_of_run; [| exact H2]. unfold open_cursor.
      frames_with ltac:(apply the_connection_respects). }
    assert (F3 : frame any_call s2 s3).
    { eapply frame_of_run; [| exact H3]. unfold execute. frames. }
    destruct F2 as (Hn2 & _), F3 as (Hn3 & _). simpl in *. congruence. }
  assert (Hh : forall what,
             exists e s',
               reraise t what err s3 = (Exc e, s' : St) :> result (list Row) * St
               /\ exn_lib e = LibraryOf t
               /\ exn_cls e = DatabaseError
               /\ exn_msg e = ("Unable to execute SQL statement using " ++ what
                                ++ " connection " ++ name (self s))%string
               /\ exn_context e = Some err
               /\ In (logging_error err) (output s')).
  { intros what. unfold reraise; run. do 2 eexists. repeat split.
    - now rewrite Hn3.
    - apply in_or_app. right. now left. }
  assert (Hrun : exists e s',
             run_statement drv sql commit kill s1 = (Exc e, s')
             /\ exn_lib e = LibraryOf t
             /\ exn_cls e = DatabaseError
             /\ exn_msg e = ("Unable to execute SQL statement using " ++ backend_label t
                              ++ " connection " ++ name (self s))%string
             /\ exn_context e = Some err
             /\ In (logging_error err) (output s')).
  { rewrite (run_statement_backend t _ _ _ _ Hrd1).
    destruct t.
    - destruct (Hh "Oracle") as (e & s' & Hr & He). exists e, s'. split; [| exact He].
      unfold runSql_oracle. erewrite bind_ok by exact H2.
      erewrite try_caught; [exact Hr | erewrite bind_exc by exact H3; reflexivity | exact Hdb].
    - destruct (Hh "SQL Server") as (e & s' & Hr & He). exists e, s'. split; [| exact He].
      unfold runSql_sqlserver. erewrite bind_ok by exact H2.
      erewrite try_caught; [exact Hr | erewrite bind_exc by exact H3; reflexivity | exact Hdb].
    - destruct (Hh "PostgreSQL") as (e & s' & Hr & He). exists e, s'. split; [| exact He].
      unfold runSql_postgresql. erewrite bind_ok by exact H2.
      erewrite try_caught; [exact Hr | erewrite bind_exc by exact H3; reflexivity | exact Hdb].
    - destruct (Hh "MySQL") as (e & s' & Hr & He). exists e, s'. split; [| exact He].
      unfold runSql_mysql.
      erewrite try_caught;
        [ exact Hr
        | erewrite bind_ok by exact H2; erewrite bind_exc by exact H3; reflexivity
        | exact Hdb ]. }
  destruct Hrun as (e & s' & Hrun & Hl & Hc & Hm & Hctx & Hlog).
  exists e. unfold runSql. erewrite bind_ok by exact H1.
  erewrite bind_exc by exact Hrun. simpl. repeat split; trivial.
  exists err. now repeat split.
Qed.

(** ** Reconnecting and disconnecting *)

Lemma connect_calls (t : DBType) (s : St) :
  rdbms (self s) = DBType_value t ->
  calls (snd (connect drv s)) = calls s ++ [CallConnect t].
Proof.
  intros Hrd. unfold connect, bind at 1, get_self at 1.
  backend t Hrd;
    unfold _oracleConnection, _sqlServerConnection, _pgConnection, _mySqlConnection;
    run;
    match goal with
    | |- context [native_connect drv ?t (world s)] =>
        destruct (native_connect drv t (world s)) as [[c | e] w]; simpl;
        [ reflexivity
        | destruct (is_DatabaseError t e) eqn:E; simpl; rewrite ?E; reflexivity ]
    end.
Qed.

Lemma statement_and_finish_respects sql one commit kill :
  respects not_CallConnect
    (bind (run_statement drv sql commit kill) (finish one)).
Proof.
  apply respects_bind; [apply run_statement_respects |].
  intros results. apply finish_respects.
Qed.

(** C9: [runSql] probes twice; when the second [status()] is false it
    then calls the library's connect, before any call of the statement,
    and when it is true it makes no connect call at all. *)
Theorem runSql_reconnects (t : DBType) sql one commit kill
        (s s1 s2 : St) (alive0 alive : bool) :
  rdbms (self s) = DBType_value t ->
  status drv s = (Ok alive0, s1) ->
  status drv s1 = (Ok alive, s2) ->
  exists probes rest,
    calls (snd (runSql drv sql one commit kill s))
    = calls s ++ probes ++ (if alive then [] else [CallConnect t]) ++ rest
    /\ forallb is_probe probes = true
    /\ forallb not_CallConnect rest = true.
Proof.
  intros Hrd Hs1 Hs2.
  pose proof (frame_of_run _ _ _ _ _ status_respects Hs1) as F1.
  pose proof (frame_of_run _ _ _ _ _ status_respects Hs2) as F2.
  destruct (frame_trans _ _ _ _ F1 F2) as (_ & Hrd2 & probes & Hp & HP).
  rewrite Hrd in Hrd2. exists probes.
  unfold runSql, ensure_connected.
  unfold bind at 1 2 3. rewrite Hs1, Hs2.
  destruct alive; simpl.
  - destruct (statement_and_finish_respects sql one commit kill s2)
      as (_ & _ & rest & Hr & HR).
    exists rest. unfold bind in Hr. unfold bind. rewrite Hr, Hp.
    now rewrite <- app_assoc.
  - pose proof (connect_calls t s2 Hrd2) as Hc.
    destruct (connect drv s2) as [[[] | e] s3]; simpl in Hc.
    + destruct (statement_and_finish_respects sql one commit kill s3)
        as (_ & _ & rest & Hr & HR).
      exists rest. unfold bind in Hr. unfold bind. rewrite Hr, Hc, Hp.
      now rewrite <- !app_assoc.
    + exists []. simpl. rewrite Hc, Hp. now rewrite <- !app_assoc.
Qed.

Lemma call_ok {A : Type} c (f : World -> result A * World) (s s' : St) (a : A) :
  call c f s = (Ok a, s') ->
  fst (f (world s)) = Ok a
  /\ self s' = self s /\ world s' = snd (f (world s)).
Proof.
  unfold call. destruct (f (world s)) as [r w]. intros [= -> <-]. now simpl.
Qed.

(** After a [disconnect] that returns, on a library that closes
    cleanly, [status()] is false. *)
Lemma disconnect_leaves_disconnected (t : DBType) (s s' : St) :
  rdbms (self s) = DBType_value t ->
  closes_cleanly drv t ->
  not_alive_is_stable drv t ->
  disconnect drv s = (Ok tt, s') ->
  fst (status drv s') = Ok false.
Proof.
  intros Hrd Hclose Hstable H. unfold disconnect in H.
  apply bind_inv_ok in H as (alive & sa & Hst & H).
  destruct (connection (self s)) as [c |] eqn:Hc.
  - destruct (status_returns t c _ _ _ Hrd Hc Hst) as (Hself & Hw & Hna).
    destruct alive.
    + apply bind_inv_ok in H as (me & sb & Hme & H).
      injection Hme as <- <-. rewrite Hself, Hrd in H.
      assert (Hcl : close_connection drv t sa = (Ok tt, s')).
      { destruct t; exact H. }
      clear H. unfold close_connection in Hcl.
      apply bind_inv_ok in Hcl as (me & sb & Hme & Hcl).
      injection Hme as <- <-.
      apply try_inv_ok in Hcl as [Hcl | (e & sb & Hcl & _)].
      * apply bind_inv_ok in Hcl as (c' & sb & Hconn & Hcl).
        unfold the_connection, get_self in Hconn.
        unfold bind in Hconn. simpl in Hconn.
        rewrite Hself, Hc in Hconn. injection Hconn as <- <-.
        apply call_ok in Hcl as (Hr & Hself' & Hw').
        destruct (Hclose c (world sa)) as (w' & Hcw & Hna').
        rewrite Hcw in Hw'. simpl in Hw'.
        apply (status_not_alive t c).
        -- now rewrite Hself', Hself.
        -- now rewrite Hself', Hself.
        -- now rewrite Hw'.
      * exfalso. unfold the_connection, get_self in Hcl.
        unfold bind in Hcl. simpl in Hcl.
        rewrite Hself, Hc in Hcl. unfold ret, call in Hcl.
        destruct (Hclose c (world sa)) as (w' & Hcw & _).
        rewrite Hcw in Hcl. discriminate.
    + injection H as <-. apply (status_not_alive t c).
      * now rewrite Hself.
      * now rewrite Hself.
      * rewrite Hw. apply Hstable. now apply Hna.
  - rewrite (status_without_connection _ Hc) in Hst. injection Hst as <- <-.
    injection H as <-. now rewrite status_without_connection.
Qed.

Ltac invert_run :=
  repeat match goal with
         | H : bind _ _ _ = (Ok _, _) |- _ =>
             let a := fresh "a" in
             let sx := fresh "sx" in
             let Hm := fresh "Hm" in
             apply bind_inv_ok in H as (a & sx & Hm & H)
         | H : try_except _ _ (reraise _ _) _ = (Ok _, _) |- _ =>
             let e := fresh "e" in
             let sx := fresh "sx" in
             apply try_inv_ok in H as [H | (e & sx & _ & _ & H)];
             [| now apply reraise_never_returns in H]
         end.

(** A statement that returns under [kill] ends with [disconnect]. *)
Lemma run_statement_ends_with_disconnect (t : DBType) sql commit
      (s s' : St) results :
  rdbms (self s) = DBType_value t ->
  run_statement drv sql commit true s = (Ok results, s') ->
  exists sd, disconnect drv sd = (Ok tt, s').
Proof.
  intros Hrd H. rewrite (run_statement_backend t _ _ _ _ Hrd) in H.
  assert (Hck : forall t' sx sy,
             commit_and_kill drv t' commit true sx = (Ok tt, sy) ->
             exists sd, disconnect drv sd = (Ok tt, sy)).
  { intros t' sx sy Hk. unfold commit_and_kill in Hk.
    apply bind_inv_ok in Hk as ([] & sd & _ & Hk). now exists sd. }
  destruct t;
    unfold runSql_oracle, runSql_sqlserver, runSql_postgresql, runSql_mysql in H;
    invert_run;
    match goal with
    | Hk : commit_and_kill drv _ commit true _ = (Ok ?u, ?sy),
      Hr : ret _ ?sy = (Ok _, s') |- _ =>
        destruct u; injection Hr as _ <-; exact (Hck _ _ _ Hk)
    end.
Qed.

(** C4, as the code has it: a [runSql] under [kill] that returns, on a
    library that closes cleanly, leaves [status()] false, whether or
    not the object was connected before. *)
Theorem runSql_kill_disconnects (t : DBType) sql one commit (s s' : St) r :
  rdbms (self s) = DBType_value t ->
  closes_cleanly drv t ->
  not_alive_is_stable drv t ->
  runSql drv sql one commit true s = (Ok r, s') ->
  fst (status drv s') = Ok false.
Proof.
  intros Hrd Hclose Hstable H. unfold runSql in H.
  apply bind_inv_ok in H as ([] & s1 & H1 & H).
  apply bind_inv_ok in H as (results & s2 & H2 & H).
  pose proof (ensure_connected_backend _ _ _ H1) as Hrd1. rewrite Hrd in Hrd1.
  destruct (run_statement_ends_with_disconnect t _ _ _ _ _ Hrd1 H2) as (sd & Hd).
  assert (Hrdd : rdbms (self sd) = DBType_value t).
  { pose proof (frame_of_run _ _ _ _ _ disconnect_respects Hd) as (_ & Hr & _).
    pose proof (frame_of_run _ _ _ _ _ (run_statement_respects sql commit true) H2)
      as (_ & Hr2 & _).
    congruence. }
  pose proof (disconnect_leaves_disconnected t _ _ Hrdd Hclose Hstable Hd) as Hst.
  unfold finish in H.
  apply bind_inv_ok in H as (r' & s3 & H3 & H).
  assert (s3 = s2) as ->.
  { destruct one; [destruct results |]; revert H3; run; congruence. }
  apply bind_inv_ok in H as ([] & s4 & H4 & H).
  injection H as _ <-.
  replace s4 with (snd (set_lastResult r' s2)) by now rewrite H4.
  now rewrite status_after_set_lastResult.
Qed.

(** ** What a method leaves alone *)

Lemma keeps_ret {T A : Type} (f : DBConnect Conn -> T) (a : A) :
  keeps f (ret a : Mo A).
Proof. intros s. reflexivity. Qed.

Lemma keeps_raise {T A : Type} (f : DBConnect Conn -> T) e :
  keeps f (raise e : Mo A).
Proof. intros s. reflexivity. Qed.

Lemma keeps_get_self {T : Type} (f : DBConnect Conn -> T) :
  keeps f (@get_self World Conn).
Proof. intros s. reflexivity. Qed.

Lemma keeps_get_world {T : Type} (f : DBConnect Conn -> T) :
  keeps f (@get_world World Conn).
Proof. intros s. reflexivity. Qed.

Lemma keeps_emit {T : Type} (f : DBConnect Conn -> T) o :
  keeps f (emit o : Mo unit).
Proof. intros s. reflexivity. Qed.

Lemma keeps_call {T A : Type} (f : DBConnect Conn -> T) c
      (g : World -> result A * World) :
  keeps f (call c g : Mo A).
Proof. intros s. unfold call. now destruct (g (world s)). Qed.

Lemma keeps_bind {T A B : Type} (f : DBConnect Conn -> T) (m : Mo A) (k : A -> Mo B) :
  keeps f m -> (forall a, keeps f (k a)) -> keeps f (bind m k).
Proof.
  intros Hm Hk s. unfold bind. specialize (Hm s).
  destruct (m s) as [[a | e] s1]; simpl in *; trivial.
  now rewrite Hk.
Qed.

Lemma keeps_try {T A : Type} (f : DBConnect Conn -> T) (m : Mo A) C (h : Exn -> Mo A) :
  keeps f m -> (forall e, keeps f (h e)) -> keeps f (try_except m C h).
Proof.
  intros Hm Hh s. unfold try_except. specialize (Hm s).
  destruct (m s) as [[a | e] s1]; simpl in *; trivial.
  destruct (C e); simpl; trivial. now rewrite Hh.
Qed.

Lemma keeps_lastResult_set_connection c :
  keeps (@lastResult Conn) (set_connection c : Mo unit).
Proof. intros s. reflexivity. Qed.

Ltac keeping_with known :=
  repeat first
    [ known
    | apply keeps_ret | apply keeps_raise
    | apply keeps_get_self | apply keeps_get_world
    | apply keeps_emit | apply keeps_call
    | apply keeps_lastResult_set_connection
    | apply keeps_bind; [| intros ?]
    | apply keeps_try; [| intros ?]
    | match goal with
      | |- keeps _ (if ?b then _ else _) => destruct b
      | |- keeps _ (match ?x with _ => _ end) => destruct x
      end ].

Ltac keeping := keeping_with fail.

Lemma the_connection_keeps {T : Type} (f : DBConnect Conn -> T) attr :
  keeps f (the_connection attr : Mo Conn).
Proof. unfold the_connection. keeping. Qed.

Lemma status_keeps {T : Type} (f : DBConnect Conn -> T) : keeps f (status drv).
Proof. unfold status. keeping. Qed.

Lemma disconnect_keeps {T : Type} (f : DBConnect Conn -> T) : keeps f (disconnect drv).
Proof.
  unfold disconnect, close_connection.
  keeping_with ltac:(first [apply status_keeps | apply the_connection_keeps]).
Qed.

Lemma commit_and_kill_keeps {T : Type} (f : DBConnect Conn -> T) t commit kill :
  keeps f (commit_and_kill drv t commit kill).
Proof.
  unfold commit_and_kill, when.
  keeping_with ltac:(first [apply the_connection_keeps | apply disconnect_keeps]).
Qed.

Lemma reraise_keeps {T A : Type} (f : DBConnect Conn -> T) t what err :
  keeps f (reraise t what err : Mo A).
Proof. unfold reraise. keeping. Qed.

Lemma run_statement_keeps {T : Type} (f : DBConnect Conn -> T) sql commit kill :
  keeps f (run_statement drv sql commit kill).
Proof.
  unfold run_statement, runSql_oracle, runSql_sqlserver, runSql_postgresql,
    runSql_mysql, open_cursor, execute, fetch, fetch_tuples.
  keeping_with
    ltac:(first [ apply the_connection_keeps | apply commit_and_kill_keeps
                | apply reraise_keeps ]).
Qed.

Lemma connect_keeps_lastResult : keeps (@lastResult Conn) (connect drv).
Proof.
  unfold connect, _oracleConnection, _sqlServerConnection, _pgConnection,
    _mySqlConnection.
  keeping.
Qed.

Lemma ensure_connected_keeps_lastResult :
  keeps (@lastResult Conn) (ensure_connected drv).
Proof.
  unfold ensure_connected, when.
  keeping_with ltac:(first [apply status_keeps | apply connect_keeps_lastResult]).
Qed.

Lemma unknown_backend_eqb (rd : string) (t : DBType) :
  unknown_backend rd -> (rd =? DBType_value t) = false.
Proof. intros H. apply String.eqb_neq. apply H. Qed.

(** ** More on [status], [connect] and [disconnect] *)

(** X1: [status()] is read-only on the object and asks the library at
    most once, with a liveness probe. *)
Theorem status_only_probes (s : St) :
  self (snd (status drv s)) = self s
  /\ exists l,
       calls (snd (status drv s)) = calls s ++ l
       /\ forallb is_probe l = true
       /\ (List.length l <= 1)%nat.
Proof.
  split; [apply (status_keeps (fun x => x)) |].
  unfold status, bind, get_self.
  destruct (connection (self s)) as [c |];
    [| exists []; rewrite app_nil_r; repeat split; simpl; lia].
  repeat match goal with
         | |- context [if ?b then _ else _] => destruct b
         end; run;
    repeat match goal with
           | |- context [match ?f drv c (world s) with _ => _ end] =>
               destruct (f drv c (world s)) as [[? | ?] ?]; simpl
           | |- context [if ?b then _ else _] => destruct b; simpl
           end;
    first [ eexists [_]; repeat split; simpl; lia
          | exists []; rewrite app_nil_r; repeat split; simpl; lia ].
Qed.

(** X2: with a backend name outside [DBType], [status()] is false even
    when a connection object is stored, and [disconnect()] does nothing:
    its own [ValueError] (line 190) is never raised. *)
Theorem unknown_backend_is_never_connected (s : St) :
  unknown_backend (rdbms (self s)) ->
  status drv s = (Ok false, s) /\ disconnect drv s = (Ok tt, s).
Proof.
  intros H.
  assert (Hs : status drv s = (Ok false, s)).
  { unfold status, bind, get_self.
    destruct (connection (self s)); [| reflexivity].
    now rewrite !(unknown_backend_eqb _ _ H). }
  split; [exact Hs |].
  unfold disconnect. erewrite bind_ok by exact Hs. reflexivity.
Qed.

(** X3: with a backend name outside [DBType], [connect()] and [runSql]
    raise the [ValueError] of [connect] and change nothing: no call is
    made, and the [ValueError] that [runSql] builds and drops (line 318)
    is never reached. *)
Theorem runSql_unknown_backend sql one commit kill (s : St) :
  unknown_backend (rdbms (self s)) ->
  connect drv s = (Exc (cannot_connect (rdbms (self s))), s)
  /\ runSql drv sql one commit kill s = (Exc (cannot_connect (rdbms (self s))), s).
Proof.
  intros H.
  assert (Hc : connect drv s = (Exc (cannot_connect (rdbms (self s))), s)).
  { unfold connect, bind, get_self.
    now rewrite !(unknown_backend_eqb _ _ H). }
  split; [exact Hc |].
  assert (Hs : status drv s = (Ok false, s)).
  { unfold status, bind, get_self.
    destruct (connection (self s)); [| reflexivity].
    now rewrite !(unknown_backend_eqb _ _ H). }
  unfold runSql, ensure_connected.
  erewrite bind_exc; [reflexivity |].
  erewrite bind_ok by exact Hs. erewrite bind_ok by exact Hs.
  simpl. exact Hc.
Qed.

(** X4: when the library opens the connection, [connect()] stores the
    new handle with that one call and no output; a handle stored before
    is replaced without being closed. *)
Theorem connect_stores_handle (t : DBType) (s : St) (c : Conn) (w' : World) :
  rdbms (self s) = DBType_value t ->
  native_connect drv t (world s) = (Ok c, w') ->
  exists s',
    connect drv s = (Ok tt, s')
    /\ connection (self s') = Some c
    /\ lastResult (self s') = lastResult (self s)
    /\ world s' = w'
    /\ output s' = output s
    /\ calls s' = calls s ++ [CallConnect t].
Proof.
  intros Hrd Hnc. unfold connect, bind at 1, get_self at 1.
  backend t Hrd;
    unfold _oracleConnection, _sqlServerConnection, _pgConnection, _mySqlConnection;
    run; rewrite Hnc; simpl; eexists; repeat split.
Qed.

(** X5: an exception of the library's connect that is not a
    [DatabaseError] (an [InterfaceError], say) is not swallowed:
    [connect()] raises it, logs nothing and leaves [connection] as it
    was. *)
Theorem connect_other_error_propagates (t : DBType) (s : St) (err : Exn) (w' : World) :
  rdbms (self s) = DBType_value t ->
  native_connect drv t (world s) = (Exc err, w') ->
  is_DatabaseError t err = false ->
  fst (connect drv s) = Exc err
  /\ self (snd (connect drv s)) = self s
  /\ output (snd (connect drv s)) = output s.
Proof.
  intros Hrd Hnc Hdb.
  assert (H : exists s', connect drv s = (Exc err, s')
                         /\ self s' = self s /\ output s' = output s).
  { unfold connect, bind at 1, get_self at 1.
    backend t Hrd;
      unfold _oracleConnection, _sqlServerConnection, _pgConnection, _mySqlConnection;
      run; rewrite Hnc; simpl; rewrite Hdb; simpl; rewrite ?Hdb; simpl;
      eexists; repeat split. }
  destruct H as (s' & -> & Hself & Hout). now repeat split.
Qed.

(** X6: [disconnect()] never changes the object: after a close the
    closed handle is still stored in [connection], not [None]. *)
Theorem disconnect_keeps_object (s : St) :
  self (snd (disconnect drv s)) = self s.
Proof. apply (disconnect_keeps (fun x => x)). Qed.

(** X7: when [status()] is true and the library's [close()] raises a
    [DatabaseError], [disconnect()] returns normally and reports the
    error on the log and the console. *)
Theorem disconnect_swallows_close_error (t : DBType) (s sa : St)
        (c : Conn) (err : Exn) (w' : World) :
  rdbms (self s) = DBType_value t ->
  connection (self s) = Some c ->
  status drv s = (Ok true, sa) ->
  conn_close drv t c (world sa) = (Exc err, w') ->
  is_DatabaseError t err = true ->
  exists s',
    disconnect drv s = (Ok tt, s')
    /\ world s' = w'
    /\ output s' = output sa
                    ++ [logging_error err;
                        print ("Unexpected error disconnecting from " ++ name (self s))].
Proof.
  intros Hrd Hc Hst Hcl Hdb.
  destruct (status_returns t c _ _ _ Hrd Hc Hst) as (Hself & _ & _).
  unfold disconnect. erewrite bind_ok by exact Hst.
  unfold bind at 1, get_self at 1. rewrite Hself, Hrd.
  assert (H : exists s',
             close_connection drv t sa = (Ok tt, s')
             /\ world s' = w'
             /\ output s' = output sa
                    ++ [logging_error err;
                        print ("Unexpected error disconnecting from " ++ name (self s))]).
  { unfold close_connection, the_connection, get_self. unfold bind, try_except.
    simpl. rewrite Hself, Hc. unfold ret, call. rewrite Hcl, Hdb.
    unfold emit. simpl. eexists. repeat split.
    now rewrite <- app_assoc. }
  destruct t; exact H.
Qed.

(** X8: on a library that closes cleanly, [connect()] followed by
    [disconnect()] leaves [status()] false. *)
Theorem connect_then_disconnect (t : DBType) (s s1 s2 : St) :
  rdbms (self s) = DBType_value t ->
  closes_cleanly drv t ->
  not_alive_is_stable drv t ->
  connect drv s = (Ok tt, s1) ->
  disconnect drv s1 = (Ok tt, s2) ->
  fst (status drv s2) = Ok false.
Proof.
  intros Hrd Hclose Hstable H1 H2.
  apply (disconnect_leaves_disconnected t s1 s2); trivial.
  pose proof (frame_of_run _ _ _ _ _ connect_respects H1) as (_ & Hr & _).
  congruence.
Qed.

(** ** More on [runSql] *)

Lemma disconnect_probes_and_closes : respects is_probe_or_close (disconnect drv).
Proof.
  unfold disconnect, close_connection. apply respects_bind.
  - eapply respects_weaken; [| apply status_respects]. now intros [].
  - intros alive. frames_with ltac:(apply the_connection_respects).
Qed.

Lemma run_statement_respects_when (P : Call -> bool) sql commit kill :
  (forall c, is_statement_call c = true -> P c = true) ->
  (forall t, respects P (commit_and_kill drv t commit kill)) ->
  respects P (run_statement drv sql commit kill).
Proof.
  intros HP Hck.
  unfold run_statement, runSql_oracle, runSql_sqlserver, runSql_postgresql,
    runSql_mysql, open_cursor, execute, fetch, fetch_tuples.
  frames_with
    ltac:(first [ apply the_connection_respects | apply Hck | apply reraise_respects
                | apply respects_call; apply HP; reflexivity ]).
Qed.

Lemma runSql_respects_when (P : Call -> bool) sql one commit kill :
  (forall c, is_probe c = true -> P c = true) ->
  (forall c, is_CallConnect c = true -> P c = true) ->
  (forall c, is_statement_call c = true -> P c = true) ->
  (forall t, respects P (commit_and_kill drv t commit kill)) ->
  respects P (runSql drv sql one commit kill).
Proof.
  intros Hprobe Hconnect Hstatement Hck.
  unfold runSql, ensure_connected, when.
  frames_with
    ltac:(first
      [ eapply respects_weaken; [exact Hprobe | apply status_respects]
      | eapply respects_weaken; [exact Hconnect | apply connect_respects]
      | apply run_statement_respects_when; assumption
      | apply finish_respects ]).
Qed.

(** X9: with [commit] false, [runSql] never calls the library's
    [commit()], whatever the library answers. *)
Theorem runSql_without_commit_never_commits sql one kill (s : St) :
  exists l,
    calls (snd (runSql drv sql one false kill s)) = calls s ++ l
    /\ forallb not_CallCommit l = true.
Proof.
  assert (H : respects not_CallCommit (runSql drv sql one false kill)).
  { apply runSql_respects_when; try (now intros []).
    intros t. unfold commit_and_kill, when.
    frames_with ltac:(eapply respects_weaken;
                      [| apply disconnect_probes_and_closes]; now intros []). }
  destruct (H s) as (_ & _ & l & Hl & HP). now exists l.
Qed.

(** X10: with [kill] false, [runSql] never calls the library's
    [close()]: the connection is left as the statement left it. *)
Theorem runSql_without_kill_never_closes sql one commit (s : St) :
  exists l,
    calls (snd (runSql drv sql one commit false s)) = calls s ++ l
    /\ forallb not_CallClose l = true.
Proof.
  assert (H : respects not_CallClose (runSql drv sql one commit false)).
  { apply runSql_respects_when; try (now intros []).
    intros t. unfold commit_and_kill, when.
    frames_with ltac:(apply the_connection_respects). }
  destruct (H s) as (_ & _ & l & Hl & HP). now exists l.
Qed.

Lemma failed_runSql_lastResult sql one commit kill (s s' : St) (e : Exn) :
  runSql drv sql one commit kill s = (Exc e, s') ->
  lastResult (self s') = lastResult (self s).
Proof.
  unfold runSql. intros H.
  pose proof (ensure_connected_keeps_lastResult s) as H1.
  unfold bind at 1 in H.
  destruct (ensure_connected drv s) as [[[] | e1] s1]; simpl in H1;
    [| injection H as _ <-; exact H1].
  pose proof (run_statement_keeps (@lastResult Conn) sql commit kill s1) as H2.
  unfold bind at 1 in H.
  destruct (run_statement drv sql commit kill s1) as [[results | e2] s2];
    simpl in H2; [| injection H as _ <-; congruence].
  unfold finish in H.
  destruct one; [destruct results as [| row rest] |]; revert H; run;
    try discriminate.
  intros [= _ <-]. congruence.
Qed.

(** X11: a [runSql] that raises leaves the object's name, backend and
    [lastResult] as they were: the result of the statement before stays
    stored. *)
Theorem runSql_failure_keeps_lastResult sql one commit kill (s s' : St) (e : Exn) :
  runSql drv sql one commit kill s = (Exc e, s') ->
  lastResult (self s') = lastResult (self s)
  /\ name (self s') = name (self s)
  /\ rdbms (self s') = rdbms (self s).
Proof.
  intros H. split; [now apply (failed_runSql_lastResult _ _ _ _ _ _ _ H) |].
  assert (F : respects any_call (runSql drv sql one commit kill)).
  { apply runSql_respects_when; try reflexivity.
    intros t. eapply respects_weaken; [| apply commit_and_kill_respects].
    reflexivity. }
  destruct (F s) as (Hn & Hr & _). rewrite H in Hn, Hr. now split.
Qed.

Lemma run_statement_without_connection (t : DBType) sql commit kill (s : St) :
  rdbms (self s) = DBType_value t ->
  connection (self s) = None ->
  run_statement drv sql commit kill s = (Exc no_cursor_on_None, s).
Proof.
  intros Hrd Hc. rewrite (run_statement_backend t _ _ _ _ Hrd).
  assert (Ho : forall t', open_cursor drv t' s = (Exc no_cursor_on_None, s)).
  { intros t'. unfold open_cursor, the_connection, get_self. unfold bind.
    simpl. now rewrite Hc. }
  destruct t.
  - unfold runSql_oracle. now erewrite bind_exc by apply Ho.
  - unfold runSql_sqlserver. now erewrite bind_exc by apply Ho.
  - unfold runSql_postgresql. now erewrite bind_exc by apply Ho.
  - unfold runSql_mysql. erewrite try_passed; [reflexivity | | reflexivity].
    now erewrite bind_exc by apply Ho.
Qed.

(** X12: when the object has no connection and the library refuses the
    new one with a [DatabaseError], [runSql] does not raise that error:
    [connect()] swallows it and [self.connection.cursor()] raises
    [AttributeError] on [None], after the connect call and before any
    call of the statement. *)
Theorem runSql_when_connection_refused (t : DBType) sql one commit kill
        (s : St) (err : Exn) (w' : World) :
  rdbms (self s) = DBType_value t ->
  connection (self s) = None ->
  native_connect drv t (world s) = (Exc err, w') ->
  is_DatabaseError t err = true ->
  fst (runSql drv sql one commit kill s) = Exc no_cursor_on_None
  /\ calls (snd (runSql drv sql one commit kill s)) = calls s ++ [CallConnect t]
  /\ lastResult (self (snd (runSql drv sql one commit kill s))) = lastResult (self s).
Proof.
  intros Hrd Hc Hnc Hdb.
  assert (H1 : exists s1,
             connect drv s = (Ok tt, s1)
             /\ connection (self s1) = None
             /\ rdbms (self s1) = rdbms (self s)
             /\ lastResult (self s1) = lastResult (self s)
             /\ calls s1 = calls s ++ [CallConnect t]).
  { unfold connect, bind at 1, get_self at 1.
    backend t Hrd;
      unfold _oracleConnection, _sqlServerConnection, _pgConnection, _mySqlConnection;
      run; rewrite Hnc; simpl; rewrite Hdb; simpl; eexists; repeat split;
      simpl; assumption. }
  destruct H1 as (s1 & H1 & Hc1 & Hrd1 & Hl1 & Hcalls).
  rewrite Hrd in Hrd1.
  assert (Hrun : runSql drv sql one commit kill s = (Exc no_cursor_on_None, s1)).
  { unfold runSql, ensure_connected.
    erewrite bind_ok; [| erewrite bind_ok by apply (status_without_connection _ Hc);
                         erewrite bind_ok by apply (status_without_connection _ Hc);
                         exact H1].
    erewrite bind_exc; [reflexivity |].
    now apply (run_statement_without_connection t). }
  rewrite Hrun. now repeat split.
Qed.

(** X13: on MySQL a [runSql] that returns a list never returns the empty
    list: an empty fetch is replaced by the rows-affected row. *)
Theorem runSql_mysql_never_empty sql commit kill (s s' : St) (rows : list Row) :
  rdbms (self s) = DBType_value MYSQL ->
  runSql drv sql false commit kill s = (Ok (RList rows), s') ->
  rows <> [].
Proof.
  intros Hrd H. unfold runSql in H.
  apply bind_inv_ok in H as ([] & s1 & H1 & H).
  apply bind_inv_ok in H as (results & s2 & H2 & H).
  pose proof (ensure_connected_backend _ _ _ H1) as Hrd1. rewrite Hrd in Hrd1.
  injection H as <- _.
  rewrite (run_statement_backend MYSQL _ _ _ _ Hrd1) in H2.
  unfold runSql_mysql in H2. invert_run.
  match goal with
  | Hr : ret _ _ = (Ok results, _) |- _ => injection Hr as <- _
  end.
  match goal with
  | Hi : (if _ then _ else _) _ = (Ok ?r, _) |- ?r <> [] =>
      destruct a1 as [| row rest]; simpl in Hi; injection Hi as <- _; discriminate
  end.
Qed.

(** ** Rows with repeated column names *)

Lemma keys_dict_set_present k v (d : Row) :
  In k (keys d) -> keys (dict_set k v d) = keys d.
Proof.
  induction d as [| [k' v'] d IH]; simpl; intros Hin; [contradiction |].
  destruct (String.eqb_spec k k') as [-> | Hne]; simpl; [reflexivity |].
  f_equal. apply IH. destruct Hin as [-> | Hin]; [contradiction | exact Hin].
Qed.

Lemma keys_dict_set k v (d : Row) :
  keys (dict_set k v d) = keys d \/ (~ In k (keys d) /\ keys (dict_set k v d) = keys d ++ [k]).
Proof.
  destruct (in_dec string_dec k (keys d)) as [Hin | Hout].
  - left. now apply keys_dict_set_present.
  - right. split; [exact Hout |]. rewrite dict_set_fresh by exact Hout.
    unfold keys. now rewrite map_app.
Qed.

Lemma dict_fold_keys (l acc : list (string * Value)) :
  NoDup (keys acc) ->
  NoDup (keys (fold_left (fun d kv => dict_set (fst kv) (snd kv) d) l acc))
  /\ incl (keys (fold_left (fun d kv => dict_set (fst kv) (snd kv) d) l acc))
          (keys acc ++ keys l).
Proof.
  revert acc. induction l as [| [k v] l IH]; intros acc Hnd; simpl.
  - split; [exact Hnd |]. rewrite app_nil_r. apply incl_refl.
  - assert (Hnd' : NoDup (keys (dict_set k v acc))).
    { destruct (keys_dict_set k v acc) as [-> | [Hout ->]]; [exact Hnd |].
      apply NoDup_app; [exact Hnd | repeat constructor; intros [] |].
      intros x Hx [<- | []]. contradiction. }
    destruct (IH _ Hnd') as [H1 H2]. split; [exact H1 |].
    intros x Hx. apply H2 in Hx. apply in_app_or in Hx as [Hx | Hx].
    + destruct (keys_dict_set k v acc) as [E | [_ E]]; rewrite E in Hx.
      * apply in_or_app. now left.
      * apply in_app_or in Hx as [Hx | [<- | []]].
        -- apply in_or_app. now left.
        -- apply in_or_app. right. now left.
    + apply in_or_app. right. now right.
Qed.

(** A [dict] has each key once, and only keys it was given. *)
Lemma dict_keys (l : list (string * Value)) :
  NoDup (keys (dict l)) /\ incl (keys (dict l)) (keys l).
Proof. apply (dict_fold_keys l []). constructor. Qed.

(** Oracle's [rowfactory] on repeated column names: fewer entries than
    columns. *)
Lemma rowfactory_repeated (columns : list string) (args : list Value) :
  ~ NoDup columns ->
  List.length args = List.length columns ->
  NoDup (keys (dict (zip columns args)))
  /\ (List.length (dict (zip columns args)) < List.length columns)%nat.
Proof.
  intros Hdup Hlen. destruct (dict_keys (zip columns args)) as [Hnd Hincl].
  split; [exact Hnd |].
  unfold zip in *. rewrite keys_combine in Hincl by exact Hlen.
  pose proof (NoDup_incl_length Hnd Hincl) as Hle.
  unfold keys in Hle at 1. rewrite length_map in Hle.
  destruct (Nat.eq_dec (List.length (dict (combine columns args)))
                       (List.length columns)) as [Heq | Hne]; [| lia].
  exfalso. apply Hdup. apply (NoDup_incl_NoDup Hnd); [| exact Hincl].
  unfold keys. rewrite length_map. lia.
Qed.

(** X14: on Oracle, when the cursor describes columns with a repeated
    name, every row [runSql] returns has each key once and so fewer
    entries than the statement has columns: a column is lost. *)
Theorem runSql_oracle_repeated_columns sql commit kill
        (s s1 s2 s3 s4 : St) (cur : Cursor) (k : Z)
        (columns : list string) (tuples : list (list Value)) :
  rdbms (self s) = DBType_value ORACLE ->
  ensure_connected drv s = (Ok tt, s1) ->
  open_cursor drv ORACLE s1 = (Ok cur, s2) ->
  execute drv ORACLE cur sql s2 = (Ok k, s3) ->
  cur_description drv cur (world s3) = Some columns ->
  ~ NoDup columns ->
  fetch_tuples drv cur s3 = (Ok tuples, s4) ->
  Forall (fun args => List.length args = List.length columns) tuples ->
  fst (commit_and_kill drv ORACLE commit kill s4) = Ok tt ->
  exists rows,
    fst (runSql drv sql false commit kill s) = Ok (RList rows)
    /\ List.length rows = List.length tuples
    /\ Forall (fun r => NoDup (keys r)
                        /\ (List.length r < List.length columns)%nat) rows.
Proof.
  intros Hrd H1 H2 H3 Hd Hdup Hf Hw Hck.
  pose proof (ensure_connected_backend _ _ _ H1) as Hrd1. rewrite Hrd in Hrd1.
  assert (H5 : commit_and_kill drv ORACLE commit kill s4
               = (Ok tt, snd (commit_and_kill drv ORACLE commit kill s4)))
    by (rewrite surjective_run, Hck; reflexivity).
  revert H5. generalize (snd (commit_and_kill drv ORACLE commit kill s4)).
  intros s5 H5.
  exists (map (fun args => dict (zip columns args)) tuples).
  split; [| split].
  - unfold runSql. erewrite bind_ok by exact H1.
    erewrite bind_ok; [apply finish_list |].
    rewrite (run_statement_backend ORACLE _ _ _ _ Hrd1).
    unfold runSql_oracle. erewrite bind_ok by exact H2.
    apply try_ok. erewrite bind_ok by exact H3.
    unfold bind at 1, get_world. rewrite Hd.
    erewrite bind_ok by (erewrite bind_ok by exact Hf; reflexivity).
    erewrite bind_ok by exact H5. reflexivity.
  - apply length_map.
  - rewrite Forall_forall in *. intros r Hin.
    apply in_map_iff in Hin as (args & <- & Hin).
    apply rowfactory_repeated; [exact Hdup | now apply Hw].
Qed.

(** ** [flush] and [makeDataFrame] *)

Section WithFrames.

Variable Frame : Type.
Variable from_records : Results -> result Frame.

Abbreviation Obj := (Facade World Conn Frame).

Lemma status_after_clear_lastResult (s : St) :
  fst (status drv (clear_lastResult s)) = fst (status drv s).
Proof.
  unfold status, bind, get_self, clear_lastResult. simpl.
  destruct (connection (self s)) as [c |]; [| reflexivity].
  repeat match goal with
         | |- context [if ?b then _ else _] => destruct b
         end; run;
    repeat match goal with
           | |- context [match ?f drv c (world s) with _ => _ end] =>
               destruct (f drv c (world s)) as [[? | ?] ?]; simpl
           | |- context [if ?b then _ else _] => destruct b; simpl
           end; reflexivity.
Qed.

(** X15: [flush()] clears [lastResult] and [dataFrame] and nothing else:
    the connection and what [status()] answers are as before, and
    [makeDataFrame()] then raises its [ValueError]. *)
Theorem flush_clears_results_only (o : Obj) :
  lastResult (self (dispatcher (flush o))) = None
  /\ dataFrame (flush o) = None
  /\ connection (self (dispatcher (flush o))) = connection (self (dispatcher o))
  /\ world (dispatcher (flush o)) = world (dispatcher o)
  /\ fst (status drv (dispatcher (flush o))) = fst (status drv (dispatcher o))
  /\ exists e, makeDataFrame from_records (flush o) = (Exc e, flush o)
               /\ exn_lib e = Builtins /\ exn_cls e = ValueError.
Proof.
  repeat split.
  - apply status_after_clear_lastResult.
  - eexists. repeat split.
Qed.

(** X16: after a [runSql] that returns [r], [makeDataFrame()] builds the
    frame from exactly [r], and stores the frame it returns. *)
Theorem makeDataFrame_after_runSql sql one commit kill (o o' : Obj) (r : Results) :
  on_dispatcher (runSql drv sql one commit kill) o = (Ok r, o') ->
  fst (makeDataFrame from_records o') = from_records r
  /\ (forall frame, from_records r = Ok frame ->
                    dataFrame (snd (makeDataFrame from_records o')) = Some frame).
Proof.
  unfold on_dispatcher. intros H.
  destruct (runSql drv sql one commit kill (dispatcher o)) as [r' s'] eqn:Hrun.
  injection H as -> <-.
  assert (Hlast : lastResult (self s') = Some r).
  { unfold runSql in Hrun.
    apply bind_inv_ok in Hrun as ([] & s1 & _ & Hrun).
    apply bind_inv_ok in Hrun as (results & s2 & _ & Hrun).
    unfold finish in Hrun.
    apply bind_inv_ok in Hrun as (r0 & s3 & _ & Hrun).
    revert Hrun. run. now intros [= -> <-]. }
  unfold makeDataFrame. simpl. rewrite Hlast.
  destruct (from_records r) as [frame | e]; simpl; split; trivial.
  - now intros frame' [= <-].
  - discriminate.
Qed.

(** X17: after a [runSql] that raises, [makeDataFrame()] answers as it
    would have before the call: it builds the frame of the earlier
    result, or raises its [ValueError] if there was none. *)
Theorem makeDataFrame_after_failed_runSql sql one commit kill (o o' : Obj) (e : Exn) :
  on_dispatcher (runSql drv sql one commit kill) o = (Exc e, o') ->
  fst (makeDataFrame from_records o') = fst (makeDataFrame from_records o).
Proof.
  unfold on_dispatcher. intros H.
  destruct (runSql drv sql one commit kill (dispatcher o)) as [r' s'] eqn:Hrun.
  injection H as -> <-.
  pose proof (failed_runSql_lastResult _ _ _ _ _ _ _ Hrun) as Hlast.
  unfold makeDataFrame. simpl. rewrite Hlast.
  destruct (lastResult (self (dispatcher o))) as [r |]; [| reflexivity].
  now destruct (from_records r).
Qed.

End WithFrames.

(** ** The order of the calls *)

Lemma in_order_early (l : list Call) : forallb before_commit l = true -> in_order l.
Proof.
  intros H. exists l, [], []. rewrite !app_nil_r. repeat split; trivial. now left.
Qed.

Lemma in_order_after_early (l1 l2 : list Call) :
  forallb before_commit l1 = true -> in_order l2 -> in_order (l1 ++ l2).
Proof.
  intros H1 (early & mid & late & -> & He & Hm & Hl).
  exists (l1 ++ early), mid, late. rewrite <- app_assoc. repeat split; trivial.
  rewrite forallb_app. now rewrite H1, He.
Qed.

Lemma no_call_nil (l : list Call) : forallb no_call l = true -> l = [].
Proof. destruct l; [reflexivity | discriminate]. Qed.

Lemma ordered_of_early {A : Type} (m : Mo A) : respects before_commit m -> ordered m.
Proof.
  intros H s. destruct (H s) as (_ & _ & l & Hl & HP).
  exists l. split; [exact Hl | now apply in_order_early].
Qed.

Lemma ordered_bind_early {A B : Type} (m : Mo A) (k : A -> Mo B) :
  respects before_commit m -> (forall a, ordered (k a)) -> ordered (bind m k).
Proof.
  intros Hm Hk s. unfold bind. destruct (Hm s) as (_ & _ & l1 & Hl1 & HP1).
  destruct (m s) as [[a | e] s1]; simpl in *.
  - destruct (Hk a s1) as (l2 & Hl2 & Ho). exists (l1 ++ l2). split.
    + now rewrite Hl2, Hl1, app_assoc.
    + now apply in_order_after_early.
  - exists l1. split; [exact Hl1 | now apply in_order_early].
Qed.

Lemma ordered_bind_quiet {A B : Type} (m : Mo A) (k : A -> Mo B) :
  ordered m -> (forall a, respects no_call (k a)) -> ordered (bind m k).
Proof.
  intros Hm Hk s. unfold bind. destruct (Hm s) as (l & Hl & Ho).
  destruct (m s) as [[a | e] s1]; simpl in *; [| now exists l].
  destruct (Hk a s1) as (_ & _ & l2 & Hl2 & HP2).
  apply no_call_nil in HP2. subst l2. rewrite app_nil_r in Hl2.
  exists l. now rewrite Hl2.
Qed.

Lemma ordered_try_quiet {A : Type} (m : Mo A) C (h : Exn -> Mo A) :
  ordered m -> (forall e, respects no_call (h e)) -> ordered (try_except m C h).
Proof.
  intros Hm Hh s. unfold try_except. destruct (Hm s) as (l & Hl & Ho).
  destruct (m s) as [[a | e] s1]; simpl in *; [now exists l |].
  destruct (C e); [| now exists l].
  destruct (Hh e s1) as (_ & _ & l2 & Hl2 & HP2).
  apply no_call_nil in HP2. subst l2. rewrite app_nil_r in Hl2.
  exists l. now rewrite Hl2.
Qed.

Lemma commit_and_kill_ordered t commit kill :
  ordered (commit_and_kill drv t commit kill).
Proof.
  intros s. unfold commit_and_kill.
  assert (H1 : exists mid,
             calls (snd (when commit
                           (bind (the_connection "commit")
                              (fun c => call (CallCommit t) (conn_commit drv t c))) s))
             = calls s ++ mid
             /\ (mid = [] \/ exists t', mid = [CallCommit t'])).
  { destruct commit; simpl.
    - unfold the_connection, get_self. unfold bind. simpl.
      destruct (connection (self s)) as [c |]; simpl.
      + unfold call. destruct (conn_commit drv t c (world s)) as [r w]. simpl.
        exists [CallCommit t]. split; [reflexivity |]. right. now exists t.
      + exists []. rewrite app_nil_r. split; [reflexivity | now left].
    - exists []. rewrite app_nil_r. split; [reflexivity | now left]. }
  destruct H1 as (mid & Hmid & Hshape). unfold bind at 1.
  destruct (when commit _ s) as [[[] | e] s1]; simpl in Hmid.
  - assert (H2 : respects is_probe_or_close (when kill (disconnect drv))).
    { unfold when. frames_with ltac:(apply disconnect_probes_and_closes). }
    destruct (H2 s1) as (_ & _ & late & Hlate & HP).
    exists (mid ++ late). split; [now rewrite Hlate, Hmid, app_assoc |].
    now exists [], mid, late.
  - exists mid. split; [exact Hmid |].
    exists [], mid, []. rewrite app_nil_r. now repeat split.
Qed.

Lemma commit_and_kill_then_ret {A : Type} t commit kill (a : A) :
  ordered (bind (commit_and_kill drv t commit kill) (fun _ => ret a)).
Proof.
  apply ordered_bind_quiet; [apply commit_and_kill_ordered |].
  intros _. apply respects_ret.
Qed.

Ltac early :=
  frames_with ltac:(first [apply the_connection_respects]).

Ltac ordering :=
  repeat first
    [ apply commit_and_kill_then_ret
    | apply ordered_try_quiet; [| intros ?; apply reraise_respects]
    | apply ordered_bind_early;
      [ solve [ unfold open_cursor, execute, fetch, fetch_tuples; early ]
      | intros ? ] ].

Lemma run_statement_ordered sql commit kill :
  ordered (run_statement drv sql commit kill).
Proof.
  unfold run_statement. apply ordered_bind_early; [apply respects_get_self |].
  intros me.
  repeat match goal with
         | |- ordered (if ?b then _ else _) => destruct b
         end;
    [ unfold runSql_oracle | unfold runSql_sqlserver
    | unfold runSql_postgresql | unfold runSql_mysql
    | apply ordered_of_early; apply respects_ret ];
    ordering.
Qed.

(** X28: in every [runSql], whatever the library answers, the calls
    come in this order: calls that are neither commit nor close (probes,
    connect, cursor, execute, fetch), then at most one commit, then only
    the probe and close of [disconnect].  So nothing is committed after
    the close, and nothing is closed before the statement has run. *)
Theorem runSql_commits_before_closing sql one commit kill (s : St) :
  exists l,
    calls (snd (runSql drv sql one commit kill s)) = calls s ++ l
    /\ in_order l.
Proof.
  assert (H : ordered (runSql drv sql one commit kill)).
  { unfold runSql. apply ordered_bind_early.
    - unfold ensure_connected, when.
      frames_with
        ltac:(first
          [ eapply respects_weaken; [| apply status_respects]; now intros []
          | eapply respects_weaken; [| apply connect_respects]; now intros [] ]).
    - intros _. apply ordered_bind_quiet; [apply run_statement_ordered |].
      intros results. apply finish_respects. }
  exact (H s).
Qed.

End Properties.

(** ** The theorems on the server of the examples *)

Lemma status_false_when_not_alive_witness :
  fst (status (server None statements) (object SQL_SERVER (Some tt) false)) = Ok false.
Proof.
  apply (@status_false_when_not_alive _ _ _ (server None statements)
           (object SQL_SERVER (Some tt) false)).
  right. exists SQL_SERVER, tt. repeat split. simpl. right.
  eexists. split; reflexivity.
Defined.

Lemma connect_failure_is_swallowed_witness :
  exists s',
    connect (server (Some (refused POSTGRESQL)) statements)
      (object POSTGRESQL None false) = (Ok tt, s')
    /\ connection (self s') = None
    /\ (In (logging_error (refused POSTGRESQL)) (output s')
        \/ In (logging_exception (refused POSTGRESQL)) (output s'))
    /\ status (server (Some (refused POSTGRESQL)) statements) s' = (Ok false, s').
Proof.
  apply (@connect_failure_is_swallowed _ _ _
           (server (Some (refused POSTGRESQL)) statements)
           POSTGRESQL (object POSTGRESQL None false) (refused POSTGRESQL)
           (world (object POSTGRESQL None false)));
    reflexivity.
Defined.

(** C6, as the claim has it, fails: a failure of the library's connect
    that is not a [DatabaseError], here SQL Server's [InterfaceError],
    is raised by [connect()] to the caller and is not logged. *)
Lemma connect_failure_of_another_class :
  fst (connect
         (server (Some (mkExn (LibraryOf SQL_SERVER) InterfaceError
                          "Connection to the database failed for an unknown reason."
                          None)) statements)
         (object SQL_SERVER None false))
  = Exc (mkExn (LibraryOf SQL_SERVER) InterfaceError
           "Connection to the database failed for an unknown reason." None)
  /\ fst (connect
            (server (Some (mkExn (LibraryOf SQL_SERVER) InterfaceError
                             "Connection to the database failed for an unknown reason."
                             None)) statements)
            (object SQL_SERVER None false))
     <> Ok tt
  /\ output (snd (connect
                    (server (Some (mkExn (LibraryOf SQL_SERVER) InterfaceError
                                     "Connection to the database failed for an unknown reason."
                                     None)) statements)
                    (object SQL_SERVER None false)))
     = [].
Proof. repeat split. discriminate. Qed.

Lemma runSql_stores_what_it_returns_witness :
  lastResult
    (self (snd (runSql (server None statements) "SELECT id, nm FROM t"
                  true false true (object MYSQL None false))))
  = Some (ROne [("id", VInt 1); ("nm", VStr "a")]).
Proof.
  eapply (@runSql_stores_what_it_returns _ _ _ (server None statements)
            "SELECT id, nm FROM t" true false true (object MYSQL None false)).
  reflexivity.
Defined.

Lemma runSql_one_of_nothing_witness :
  fst (runSql (server None statements) "SELECT id FROM t WHERE 1 = 0"
         true false true (object ORACLE (Some tt) true))
  = Exc (mkExn Builtins IndexError "list index out of range" None).
Proof.
  erewrite (@runSql_one_of_nothing _ _ _ (server None statements)
              "SELECT id FROM t WHERE 1 = 0" false true
              (object ORACLE (Some tt) true));
    reflexivity.
Defined.

(** C7, as the claim has it, fails: on Oracle a SELECT of no rows under
    [one] raises the builtin [IndexError] of the indexing, and no other
    class. *)
Lemma runSql_one_of_nothing_is_an_index_fault :
  exists e,
    fst (runSql (server None statements) "SELECT id FROM t WHERE 1 = 0"
           true false true (object ORACLE (Some tt) true)) = Exc e
    /\ exn_lib e = Builtins
    /\ exn_cls e = IndexError
    /\ class_name (exn_cls e) <> "EmptyResultError".
Proof. eexists. repeat split. discriminate. Qed.

Lemma runSql_rows_affected_witness :
  fst (runSql (server None statements) "UPDATE t SET x = 1"
         false true true (object SQL_SERVER None false))
  = Ok (RList [[("Row(s) affected", VInt 3)]]).
Proof.
  eapply (@runSql_rows_affected _ _ _ (server None statements) SQL_SERVER
            "UPDATE t SET x = 1" false true true (object SQL_SERVER None false)).
  - reflexivity.
  - reflexivity.
  - reflexivity.
  - reflexivity.
  - simpl. split; [eexists; split; reflexivity | reflexivity].
  - reflexivity.
Defined.

(** C1, as the claim has it, fails: on PostgreSQL a CREATE TABLE AS
    that copies 3 rows has no result set and the row count 3, but its
    status message begins with SELECT, so [runSql] calls [fetchall] and
    re-raises its error instead of returning the rows-affected row. *)
Lemma runSql_postgresql_create_table_as :
  cur_description (server None ddl_statements) tt
    (world (snd (runSql (server None ddl_statements)
                   "CREATE TABLE t2 AS SELECT * FROM t"
                   false false true (object POSTGRESQL (Some tt) true))))
  = None
  /\ cur_rowcount (server None ddl_statements) POSTGRESQL tt
       (world (snd (runSql (server None ddl_statements)
                      "CREATE TABLE t2 AS SELECT * FROM t"
                      false false true (object POSTGRESQL (Some tt) true))))
     = 3%Z
  /\ fst (runSql (server None ddl_statements)
            "CREATE TABLE t2 AS SELECT * FROM t"
            false false true (object POSTGRESQL (Some tt) true))
     = Exc (mkExn (LibraryOf POSTGRESQL) DatabaseError
              "Unable to execute SQL statement using PostgreSQL connection reporting"
              (Some (mkExn (LibraryOf POSTGRESQL) ProgrammingError
                       "no results to fetch" None)))
  /\ fst (runSql (server None ddl_statements)
            "CREATE TABLE t2 AS SELECT * FROM t"
            false false true (object POSTGRESQL (Some tt) true))
     <> Ok (RList [[("Row(s) affected", VInt 3)]]).
Proof. repeat split. discriminate. Qed.

Lemma runSql_postgresql_without_rows_witness :
  fst (runSql (server None statements) "SELECT id FROM t WHERE 1 = 0"
         false false true (object POSTGRESQL (Some tt) true))
  = Ok (RList [[("Row(s) affected", VInt 0)]]).
Proof.
  edestruct (@runSql_postgresql_without_rows _ _ _ (server None statements)
               "SELECT id FROM t WHERE 1 = 0" false false true
               (object POSTGRESQL (Some tt) true)) as [H _].
  - reflexivity.
  - reflexivity.
  - reflexivity.
  - reflexivity.
  - right. simpl. lia.
  - reflexivity.
  - exact H.
Defined.



Lemma runSql_statement_error_witness :
  exists e,
    fst (runSql (server None statements) "DROP TABLE missing"
           false false true (object ORACLE (Some tt) true)) = Exc e
    /\ exn_lib e = LibraryOf ORACLE
    /\ exn_cls e = DatabaseError
    /\ exn_msg e = "Unable to execute SQL statement using Oracle connection reporting"
    /\ (exists wrapped,
          exn_context e = Some wrapped
          /\ wrapped = mkExn (LibraryOf ORACLE) DatabaseError
                         "ORA-00942: table or view does not exist" None
          /\ exn_msg wrapped = "ORA-00942: table or view does not exist")
    /\ In (logging_error (mkExn (LibraryOf ORACLE) DatabaseError
                            "ORA-00942: table or view does not exist" None))
         (output (snd (runSql (server None statements) "DROP TABLE missing"
                         false false true (object ORACLE (Some tt) true)))).
Proof.
  eapply (@runSql_statement_error _ _ _ (server None statements) ORACLE
            "DROP TABLE missing" false false true (object ORACLE (Some tt) true));
    reflexivity.
Defined.

Lemma runSql_reconnects_witness :
  exists probes rest,
    calls (snd (runSql (server None statements) "UPDATE t SET x = 1"
                  false false false (object ORACLE (Some tt) false)))
    = calls (object ORACLE (Some tt) false)
      ++ probes ++ (if false then [] else [CallConnect ORACLE]) ++ rest
    /\ forallb is_probe probes = true
    /\ forallb not_CallConnect rest = true.
Proof.
  eapply (@runSql_reconnects _ _ _ (server None statements) ORACLE
            "UPDATE t SET x = 1" false false false
            (object ORACLE (Some tt) false));
    reflexivity.
Defined.

Lemma runSql_kill_disconnects_witness :
  fst (status (server None statements)
         (snd (runSql (server None statements) "UPDATE t SET x = 1"
                 false false true (object ORACLE (Some tt) true))))
  = Ok false.
Proof.
  eapply (@runSql_kill_disconnects _ _ _ (server None statements) ORACLE
            "UPDATE t SET x = 1" false false (object ORACLE (Some tt) true)).
  - reflexivity.
  - intros c w. eexists. split; [reflexivity | left; reflexivity].
  - intros c w H. exact H.
  - reflexivity.
Defined.

(** C4, as the claim has it, fails: on Oracle, connected, a statement
    that the server rejects leaves [runSql] under [kill] with the
    connection open: no close is called and [status()] is still true. *)
Lemma runSql_kill_keeps_connection_on_error :
  (exists e,
     fst (runSql (server None statements) "DROP TABLE missing"
            false false true (object ORACLE (Some tt) true)) = Exc e)
  /\ calls (snd (runSql (server None statements) "DROP TABLE missing"
                   false false true (object ORACLE (Some tt) true)))
     = [CallIsHealthy; CallIsHealthy; CallCursor ORACLE;
        CallExecute ORACLE "DROP TABLE missing"]
  /\ fst (status (server None statements)
            (snd (runSql (server None statements) "DROP TABLE missing"
                    false false true (object ORACLE (Some tt) true))))
     = Ok true
  /\ fst (status (server None statements)
            (snd (runSql (server None statements) "DROP TABLE missing"
                    false false true (object ORACLE (Some tt) true))))
     <> Ok false.
Proof. repeat split; [eexists; reflexivity | discriminate]. Qed.

(** * The configuration file *)

Section ConfigProperties.

Import Config.

Variable default_config : string.
Variable valid_key : string -> bool.
Variable encrypt : string -> nat -> string -> string.
Variable decrypt : string -> string -> option string.

Lemma length_append (a b : string) :
  String.length (a ++ b) = (String.length a + String.length b)%nat.
Proof. induction a as [| c a IH]; simpl; [reflexivity | now rewrite IH]. Qed.

Lemma substring_append (a b : string) :
  substring 0 (String.length a) (a ++ b) = a.
Proof.
  induction a as [| c a IH]; simpl.
  - now destruct b.
  - now rewrite IH.
Qed.

Lemma substring_all (a : string) : substring 0 (String.length a) a = a.
Proof. induction a as [| c a IH]; simpl; [reflexivity | now rewrite IH]. Qed.

(** [(p + suffix)[:-n]] is [p] when [suffix] has [n] characters. *)
Lemma drop_last_append (n : nat) (p suffix : string) :
  String.length suffix = n -> drop_last n (p ++ suffix) = p.
Proof.
  intros <-. unfold drop_last. rewrite length_append.
  replace (String.length p + String.length suffix - String.length suffix)%nat
    with (String.length p) by lia.
  apply substring_append.
Qed.

Lemma get_set_same (key : string) (v : Json) (entry : Entry) :
  get key (set key v entry) = Some v.
Proof.
  induction entry as [| [k v'] entry IH]; simpl.
  - now rewrite String.eqb_refl.
  - destruct (String.eqb_spec key k) as [-> | Hne]; simpl.
    + now rewrite String.eqb_refl.
    + apply String.eqb_neq in Hne. now rewrite Hne.
Qed.

Lemma get_set_other (key other : string) (v : Json) (entry : Entry) :
  other <> key -> get other (set key v entry) = get other entry.
Proof.
  intros Hne. induction entry as [| [k v'] entry IH]; simpl.
  - apply String.eqb_neq in Hne. now rewrite Hne.
  - destruct (String.eqb_spec key k) as [-> | Hk]; simpl.
    + apply String.eqb_neq in Hne. now rewrite Hne.
    + now rewrite IH.
Qed.

Lemma keys_set_present (key : string) (v v0 : Json) (entry : Entry) :
  get key entry = Some v0 -> map fst (set key v entry) = map fst entry.
Proof.
  induction entry as [| [k v'] entry IH]; simpl; [discriminate |].
  destruct (String.eqb_spec key k) as [-> | Hk]; simpl; [reflexivity |].
  intros H. now rewrite IH.
Qed.

(** ** [_getDetails] *)

Lemma first_active_returns (name : string) (entries : list Entry) (entry : Entry) :
  first_active name entries = Returns entry <->
  exists before after,
    entries = before ++ entry :: after
    /\ Forall (passed_over name) before
    /\ selected name entry.
Proof.
  split.
  - induction entries as [| e rest IH]; simpl; [discriminate |].
    destruct (get "active" e) as [a |] eqn:Ha; [| discriminate].
    destruct (truthy a) eqn:Ht.
    + destruct (get "connection-name" e) as [n |] eqn:Hn; [| discriminate].
      destruct (equals_str n name) eqn:He.
      * intros [= <-]. exists [], rest. repeat split; [constructor |].
        now exists a, n.
      * intros H. destruct (IH H) as (before & after & -> & Hb & Hs).
        exists (e :: before), after. repeat split; trivial.
        constructor; [| exact Hb]. exists a. split; [exact Ha |].
        right. now exists n.
    + intros H. destruct (IH H) as (before & after & -> & Hb & Hs).
      exists (e :: before), after. repeat split; trivial.
      constructor; [| exact Hb]. exists a. split; [exact Ha |]. now left.
  - intros (before & after & -> & Hb & (a & n & Ha & Ht & Hn & He)).
    induction Hb as [| e before (a' & Ha' & Hp) _ IH]; simpl.
    + now rewrite Ha, Ht, Hn, He.
    + rewrite Ha'. destruct Hp as [Hf | (n' & Hn' & He')].
      * now rewrite Hf.
      * rewrite Hn', He'. now destruct (truthy a').
Qed.

(** X18: [_getDetails] returns an entry exactly when the file lists it
    as the first entry that is active and has the name: every entry
    before it is inactive, or active under another name.  An inactive
    entry of the same name is passed over. *)
Theorem getDetails_first_active (name : string) (fs : Files)
        (entries : list Entry) (entry : Entry) :
  fs default_config = Some entries ->
  (_getDetails default_config name fs = Returns entry <->
   exists before after,
     entries = before ++ entry :: after
     /\ Forall (passed_over name) before
     /\ selected name entry).
Proof.
  intros Hfs. unfold _getDetails. rewrite Hfs. apply first_active_returns.
Qed.

(** X19: when every entry of the file is inactive or has another name,
    [_getDetails] raises the [ValueError] that names the connection. *)
Theorem getDetails_not_found (name : string) (fs : Files) (entries : list Entry) :
  fs default_config = Some entries ->
  Forall (passed_over name) entries ->
  _getDetails default_config name fs
  = Raises (ValueError ("Unable to find active connection " ++ name
                        ++ " in JSON config file")).
Proof.
  intros Hfs Hall. unfold _getDetails. rewrite Hfs. clear Hfs.
  induction Hall as [| e rest (a & Ha & Hp) _ IH]; simpl; [reflexivity |].
  rewrite Ha. destruct Hp as [Hf | (n & Hn & He)].
  - now rewrite Hf.
  - rewrite Hn, He. now destruct (truthy a).
Qed.

(** X20: an entry without the key ["active"] that comes before any
    match makes [_getDetails] raise [KeyError], even when a matching
    entry follows it. *)
Theorem getDetails_entry_without_active (name : string) (fs : Files)
        (before after : list Entry) (entry : Entry) :
  fs default_config = Some (before ++ entry :: after) ->
  Forall (passed_over name) before ->
  get "active" entry = None ->
  _getDetails default_config name fs = Raises (KeyError "active").
Proof.
  intros Hfs Hb Hnone. unfold _getDetails. rewrite Hfs. clear Hfs.
  induction Hb as [| e rest (a & Ha & Hp) _ IH]; simpl.
  - now rewrite Hnone.
  - rewrite Ha. destruct Hp as [Hf | (n & Hn & He)].
    + now rewrite Hf.
    + rewrite Hn, He. now destruct (truthy a).
Qed.

(** ** [encryptConfigFile] *)

Lemma append_inv_head (p a b : string) : (p ++ a = p ++ b)%string -> a = b.
Proof.
  induction p as [| c p IH]; simpl; intros H; [exact H |].
  injection H as H. now apply IH.
Qed.

Lemma encrypt_entries_nth (eKey : string) (entries : list Entry) :
  forall (i : nat) (encrypted : list Entry),
    encrypt_entries encrypt eKey i entries = Returns encrypted ->
    List.length encrypted = List.length entries
    /\ forall n entry,
         nth_error entries n = Some entry ->
         exists entry',
           nth_error encrypted n = Some entry'
           /\ encrypted_as encrypt eKey (i + n) entry entry'.
Proof.
  induction entries as [| e rest IH]; simpl; intros i encrypted H.
  - injection H as <-. split; [reflexivity |]. intros [| n] entry; discriminate.
  - destruct (get "password" e) as [[| | | pw | |] |] eqn:Hp; try discriminate.
    destruct (encrypt_entries encrypt eKey (S i) rest) as [rest' |] eqn:Hr;
      [| discriminate].
    injection H as <-. destruct (IH _ _ Hr) as [Hlen Hnth].
    split; [simpl; now rewrite Hlen |].
    intros [| n] entry; simpl.
    + intros [= <-]. eexists. split; [reflexivity |].
      exists pw. rewrite Nat.add_0_r. now split.
    + intros Hn. destruct (Hnth _ _ Hn) as (entry' & Hn' & He).
      exists entry'. split; [exact Hn' |].
      now rewrite <- plus_n_Sm.
Qed.

Lemma encrypted_as_elsewhere (eKey : string) (i : nat) (before after : Entry) :
  encrypted_as encrypt eKey i before after ->
  map fst after = map fst before
  /\ forall key, key <> "password" -> get key after = get key before.
Proof.
  intros (pw & Hp & ->). split.
  - eapply keys_set_present. exact Hp.
  - intros key Hne. now apply get_set_other.
Qed.

Lemma first_active_encrypted (eKey name : string) (entries : list Entry) :
  forall (i : nat) (encrypted : list Entry),
    encrypt_entries encrypt eKey i entries = Returns encrypted ->
    match first_active name entries with
    | Returns entry =>
        exists j entry',
          first_active name encrypted = Returns entry'
          /\ encrypted_as encrypt eKey j entry entry'
    | Raises e => first_active name encrypted = Raises e
    end.
Proof.
  induction entries as [| e rest IH]; simpl; intros i encrypted H.
  - now injection H as <-.
  - destruct (get "password" e) as [[| | | pw | |] |] eqn:Hp; try discriminate.
    destruct (encrypt_entries encrypt eKey (S i) rest) as [rest' |] eqn:Hr;
      [| discriminate].
    injection H as <-. simpl.
    rewrite !get_set_other by discriminate.
    destruct (get "active" e) as [a |]; [| reflexivity].
    destruct (truthy a); [| now apply (IH (S i))].
    destruct (get "connection-name" e) as [n |]; [| reflexivity].
    destruct (equals_str n name); [| now apply (IH (S i))].
    exists i. eexists. split; [reflexivity |]. now exists pw.
Qed.

(** X21: given a path that ends in [-plaintext.json], as the default
    does, [encryptConfigFile] writes the encrypted entries to the path
    with that ending replaced by [.json] and touches no other file: the
    file of plain-text passwords is still there afterwards. *)
Theorem encryptConfigFile_writes_beside (eKey p : string) (fs : Files)
        (entries encrypted : list Entry) :
  valid_key eKey = true ->
  fs (p ++ "-plaintext.json")%string = Some entries ->
  encrypt_entries encrypt eKey 0 entries = Returns encrypted ->
  let run := encryptConfigFile valid_key encrypt eKey (p ++ "-plaintext.json") fs in
  fst run = Returns tt
  /\ snd run (p ++ ".json")%string = Some encrypted
  /\ (forall q, q <> (p ++ ".json")%string -> snd run q = fs q)
  /\ snd run (p ++ "-plaintext.json")%string = Some entries.
Proof.
  intros Hkey Hfs Henc run. subst run.
  unfold encryptConfigFile. rewrite Hkey, Hfs, Henc. simpl fst. simpl snd.
  rewrite (drop_last_append 15 p "-plaintext.json") by reflexivity.
  assert (Hother : forall q, q <> (p ++ ".json")%string ->
                             write (p ++ ".json") encrypted fs q = fs q).
  { intros q Hq. unfold write. apply String.eqb_neq in Hq. now rewrite Hq. }
  repeat split.
  - unfold write. now rewrite String.eqb_refl.
  - exact Hother.
  - rewrite Hother; [exact Hfs |].
    intros H. apply append_inv_head in H. discriminate.
Qed.

(** X22: given a path of at most 15 characters, the slice
    [configFile[:-15]] is empty and [encryptConfigFile] writes to the
    file named [.json]. *)
Theorem encryptConfigFile_short_path (eKey configFile : string) (fs : Files)
        (entries encrypted : list Entry) :
  valid_key eKey = true ->
  (String.length configFile <= 15)%nat ->
  fs configFile = Some entries ->
  encrypt_entries encrypt eKey 0 entries = Returns encrypted ->
  snd (encryptConfigFile valid_key encrypt eKey configFile fs) ".json"
  = Some encrypted.
Proof.
  intros Hkey Hlen Hfs Henc.
  unfold encryptConfigFile. rewrite Hkey, Hfs, Henc. simpl snd.
  unfold drop_last.
  replace (String.length configFile - 15)%nat with 0%nat by lia.
  assert (H0 : substring 0 0 configFile = "") by now destruct configFile.
  rewrite H0. unfold write. simpl. reflexivity.
Qed.

(** X23: the file [encryptConfigFile] writes has the entries of the
    file it read, in their order: the n-th entry with its password
    replaced by the n-th token, and with the same keys and the same
    value under every other key. *)
Theorem encryptConfigFile_keeps_everything_else (eKey configFile : string)
        (fs fs' : Files) (entries : list Entry) :
  fs configFile = Some entries ->
  encryptConfigFile valid_key encrypt eKey configFile fs = (Returns tt, fs') ->
  exists encrypted,
    fs' (drop_last 15 configFile ++ ".json")%string = Some encrypted
    /\ List.length encrypted = List.length entries
    /\ forall n entry,
         nth_error entries n = Some entry ->
         exists entry',
           nth_error encrypted n = Some entry'
           /\ encrypted_as encrypt eKey n entry entry'
           /\ map fst entry' = map fst entry
           /\ forall key, key <> "password" -> get key entry' = get key entry.
Proof.
  intros Hfs. unfold encryptConfigFile. rewrite Hfs.
  destruct (valid_key eKey); [| discriminate].
  destruct (encrypt_entries encrypt eKey 0 entries) as [encrypted |] eqn:Henc;
    [| discriminate].
  intros [= <-]. exists encrypted.
  destruct (encrypt_entries_nth _ _ _ _ Henc) as [Hlen Hnth].
  split; [| split; [exact Hlen |]].
  - unfold write. now rewrite String.eqb_refl.
  - intros n entry Hn. destruct (Hnth _ _ Hn) as (entry' & Hn' & He).
    exists entry'. split; [exact Hn' |]. split; [exact He |].
    now apply (encrypted_as_elsewhere eKey n).
Qed.

(** X24: encryption does not change what [_getDetails] finds: on the
    file written beside a [-plaintext.json] file it returns the
    encrypted form of the entry the loop finds in the plain file, and
    raises what the loop raises there. *)
Theorem getDetails_after_encryption (eKey p name : string) (fs : Files)
        (entries : list Entry) :
  default_config = (p ++ ".json")%string ->
  fs (p ++ "-plaintext.json")%string = Some entries ->
  fst (encryptConfigFile valid_key encrypt eKey (p ++ "-plaintext.json") fs)
  = Returns tt ->
  let fs' := snd (encryptConfigFile valid_key encrypt eKey
                    (p ++ "-plaintext.json") fs) in
  match first_active name entries with
  | Returns entry =>
      exists i entry',
        _getDetails default_config name fs' = Returns entry'
        /\ encrypted_as encrypt eKey i entry entry'
  | Raises e => _getDetails default_config name fs' = Raises e
  end.
Proof.
  intros Hdef Hfs. unfold encryptConfigFile. rewrite Hfs.
  destruct (valid_key eKey); [| discriminate].
  destruct (encrypt_entries encrypt eKey 0 entries) as [encrypted |] eqn:Henc;
    [| discriminate].
  intros _. simpl.
  rewrite (drop_last_append 15 p "-plaintext.json") by reflexivity.
  unfold _getDetails, write. rewrite Hdef, String.eqb_refl.
  apply (first_active_encrypted eKey name entries 0 encrypted Henc).
Qed.

(** X25: round trip.  With a cipher whose [decrypt] undoes [encrypt],
    the password an [_xConnection] decrypts from the entry that
    [_getDetails] finds in the encrypted file is the plain-text
    password of the entry found in the plain file. *)
Theorem password_round_trip (eKey p name plain : string) (fs : Files)
        (entries : list Entry) (entry : Entry) :
  (forall i text, decrypt eKey (encrypt eKey i text) = Some text) ->
  default_config = (p ++ ".json")%string ->
  fs (p ++ "-plaintext.json")%string = Some entries ->
  fst (encryptConfigFile valid_key encrypt eKey (p ++ "-plaintext.json") fs)
  = Returns tt ->
  first_active name entries = Returns entry ->
  get "password" entry = Some (JStr plain) ->
  exists entry',
    _getDetails default_config name
      (snd (encryptConfigFile valid_key encrypt eKey (p ++ "-plaintext.json") fs))
    = Returns entry'
    /\ password_of decrypt eKey entry' = Returns plain.
Proof.
  intros Hcipher Hdef Hfs. unfold encryptConfigFile. rewrite Hfs.
  destruct (valid_key eKey); [| discriminate].
  destruct (encrypt_entries encrypt eKey 0 entries) as [encrypted |] eqn:Henc;
    [| discriminate].
  intros _ Hfound Hplain. simpl.
  rewrite (drop_last_append 15 p "-plaintext.json") by reflexivity.
  unfold _getDetails, write. rewrite Hdef, String.eqb_refl.
  pose proof (first_active_encrypted eKey name entries 0 encrypted Henc) as H.
  rewrite Hfound in H. destruct H as (i & entry' & Hf & (pw & Hp & ->)).
  rewrite Hplain in Hp. injection Hp as <-.
  eexists. split; [exact Hf |].
  unfold password_of. now rewrite get_set_same, Hcipher.
Qed.

(** X26: an [encryptConfigFile] that raises has written nothing. *)
Theorem encryptConfigFile_failure_writes_nothing (eKey configFile : string)
        (fs : Files) (e : Error) :
  fst (encryptConfigFile valid_key encrypt eKey configFile fs) = Raises e ->
  snd (encryptConfigFile valid_key encrypt eKey configFile fs) = fs.
Proof.
  unfold encryptConfigFile.
  destruct (valid_key eKey); [| reflexivity].
  destruct (fs configFile) as [entries |]; [| reflexivity].
  destruct (encrypt_entries encrypt eKey 0 entries); [discriminate | reflexivity].
Qed.

Lemma encrypt_entries_without_password (eKey : string) (entries : list Entry)
      (entry : Entry) :
  In entry entries ->
  get "password" entry = None ->
  forall i, exists e, encrypt_entries encrypt eKey i entries = Raises e.
Proof.
  induction entries as [| e0 rest IH]; simpl; intros Hin Hnone i; [contradiction |].
  destruct Hin as [-> | Hin].
  - rewrite Hnone. now eexists.
  - destruct (get "password" e0) as [[| | | pw | |] |]; try (now eexists).
    destruct (IH Hin Hnone (S i)) as (e & ->). now eexists.
Qed.

(** X27: when any entry of the file has no ["password"],
    [encryptConfigFile] raises and no file is written, not even for the
    entries before it. *)
Theorem encryptConfigFile_entry_without_password (eKey configFile : string)
        (fs : Files) (entries : list Entry) (entry : Entry) :
  valid_key eKey = true ->
  fs configFile = Some entries ->
  In entry entries ->
  get "password" entry = None ->
  exists e,
    encryptConfigFile valid_key encrypt eKey configFile fs = (Raises e, fs).
Proof.
  intros Hkey Hfs Hin Hnone. unfold encryptConfigFile. rewrite Hkey, Hfs.
  destruct (encrypt_entries_without_password eKey _ _ Hin Hnone 0) as (e & ->).
  now exists e.
Qed.

End ConfigProperties.

(** * The further properties on the examples *)

Lemma sqlite_is_unknown : unknown_backend "sqlite".
Proof. intros []; discriminate. Qed.

Lemma unknown_backend_is_never_connected_witness :
  status (server None statements) (stranger (Some tt)) = (Ok false, stranger (Some tt))
  /\ disconnect (server None statements) (stranger (Some tt))
     = (Ok tt, stranger (Some tt)).
Proof.
  apply (@unknown_backend_is_never_connected _ _ _ (server None statements)
           (stranger (Some tt))).
  exact sqlite_is_unknown.
Defined.

Lemma runSql_unknown_backend_witness :
  connect (server None statements) (stranger (Some tt))
  = (Exc (cannot_connect "sqlite"), stranger (Some tt))
  /\ runSql (server None statements) "SELECT 1" false false true (stranger (Some tt))
     = (Exc (cannot_connect "sqlite"), stranger (Some tt)).
Proof.
  apply (@runSql_unknown_backend _ _ _ (server None statements)
           "SELECT 1" false false true (stranger (Some tt))).
  exact sqlite_is_unknown.
Defined.

Lemma connect_stores_handle_witness :
  exists s',
    connect (server None statements) (object ORACLE None false) = (Ok tt, s')
    /\ connection (self s') = Some tt
    /\ lastResult (self s') = None
    /\ world s' = {| is_open := true; last := None |}
    /\ output s' = []
    /\ calls s' = [] ++ [CallConnect ORACLE].
Proof.
  apply (@connect_stores_handle _ _ _ (server None statements) ORACLE
           (object ORACLE None false) tt {| is_open := true; last := None |});
    reflexivity.
Defined.

Lemma connect_other_error_propagates_witness :
  let err := mkExn (LibraryOf SQL_SERVER) InterfaceError
               "Connection to the database failed for an unknown reason." None in
  fst (connect (server (Some err) statements) (object SQL_SERVER None false)) = Exc err
  /\ self (snd (connect (server (Some err) statements) (object SQL_SERVER None false)))
     = self (object SQL_SERVER None false)
  /\ output (snd (connect (server (Some err) statements)
                    (object SQL_SERVER None false)))
     = [].
Proof.
  intros err.
  apply (@connect_other_error_propagates _ _ _ (server (Some err) statements)
           SQL_SERVER (object SQL_SERVER None false) err
           (world (object SQL_SERVER None false)));
    reflexivity.
Defined.

Lemma disconnect_swallows_close_error_witness :
  let err := mkExn (LibraryOf ORACLE) DatabaseError "ORA-03113: end-of-file" None in
  exists s',
    disconnect (stubborn err) (object ORACLE (Some tt) true) = (Ok tt, s')
    /\ world s' = {| is_open := true; last := None |}
    /\ output s' = [] ++ [logging_error err;
                          print "Unexpected error disconnecting from reporting"].
Proof.
  intros err.
  apply (@disconnect_swallows_close_error _ _ _ (stubborn err) ORACLE
           (object ORACLE (Some tt) true)
           (snd (status (stubborn err) (object ORACLE (Some tt) true)))
           tt err {| is_open := true; last := None |});
    reflexivity.
Defined.

Lemma connect_then_disconnect_witness :
  fst (status (server None statements)
         (snd (disconnect (server None statements)
                 (snd (connect (server None statements)
                         (object ORACLE None false))))))
  = Ok false.
Proof.
  eapply (@connect_then_disconnect _ _ _ (server None statements) ORACLE
            (object ORACLE None false)).
  - reflexivity.
  - intros c w. eexists. split; [reflexivity | left; reflexivity].
  - intros c w H. exact H.
  - reflexivity.
  - reflexivity.
Defined.

Lemma runSql_failure_keeps_lastResult_witness :
  lastResult (self (snd (runSql (server None statements) "DROP TABLE missing"
                           false false true (object ORACLE (Some tt) true))))
  = None.
Proof.
  eapply (@runSql_failure_keeps_lastResult _ _ _ (server None statements)
            "DROP TABLE missing" false false true (object ORACLE (Some tt) true)).
  reflexivity.
Defined.

Lemma runSql_when_connection_refused_witness :
  fst (runSql (server (Some (refused MYSQL)) statements) "SELECT id, nm FROM t"
         false false true (object MYSQL None false))
  = Exc no_cursor_on_None.
Proof.
  eapply (@runSql_when_connection_refused _ _ _
            (server (Some (refused MYSQL)) statements) MYSQL
            "SELECT id, nm FROM t" false false true (object MYSQL None false)
            (refused MYSQL) (world (object MYSQL None false)));
    reflexivity.
Defined.

Lemma runSql_mysql_never_empty_witness :
  [rows_affected 0] <> [].
Proof.
  eapply (@runSql_mysql_never_empty _ _ _ (server None statements)
            "SELECT id FROM t WHERE 1 = 0" false true
            (object MYSQL (Some tt) true));
    reflexivity.
Defined.

Lemma runSql_oracle_repeated_columns_witness :
  exists rows,
    fst (runSql (server None join_statements)
           "SELECT a.id, b.id FROM a JOIN b ON a.id = b.ref"
           false false true (object ORACLE (Some tt) true))
    = Ok (RList rows)
    /\ List.length rows = 2%nat
    /\ Forall (fun r => NoDup (keys r) /\ (List.length r < 2)%nat) rows.
Proof.
  eapply (@runSql_oracle_repeated_columns _ _ _ (server None join_statements)
            "SELECT a.id, b.id FROM a JOIN b ON a.id = b.ref" false true
            (object ORACLE (Some tt) true) _ _ _ _ _ _ ["id"; "id"]
            [[VInt 1; VInt 7]; [VInt 2; VInt 9]]).
  - reflexivity.
  - reflexivity.
  - reflexivity.
  - reflexivity.
  - reflexivity.
  - intros H. inversion H as [| x l Hin _]. apply Hin. now left.
  - reflexivity.
  - repeat constructor.
  - reflexivity.
Defined.

Lemma makeDataFrame_after_runSql_witness :
  fst (makeDataFrame row_count
         (snd (on_dispatcher
                 (runSql (server None statements) "SELECT id, nm FROM t"
                    false false true)
                 {| dispatcher := object ORACLE None false; dataFrame := None |})))
  = Ok 2%nat.
Proof.
  edestruct (@makeDataFrame_after_runSql _ _ _ (server None statements) nat
               row_count "SELECT id, nm FROM t" false false true
               {| dispatcher := object ORACLE None false; dataFrame := None |})
    as [H _].
  - reflexivity.
  - exact H.
Defined.

Lemma makeDataFrame_after_failed_runSql_witness :
  fst (makeDataFrame row_count
         (snd (on_dispatcher
                 (runSql (server None statements) "DROP TABLE missing"
                    false false true)
                 {| dispatcher := object ORACLE (Some tt) true; dataFrame := None |})))
  = fst (makeDataFrame row_count
           {| dispatcher := object ORACLE (Some tt) true; dataFrame := None |}).
Proof.
  eapply (@makeDataFrame_after_failed_runSql _ _ _ (server None statements)
            nat row_count "DROP TABLE missing" false false true
            {| dispatcher := object ORACLE (Some tt) true; dataFrame := None |}).
  reflexivity.
Defined.

Lemma getDetails_first_active_witness :
  Config._getDetails "/srv/config/database-config-plaintext.json" "reporting"
    Config.sample_files
  = Config.Returns Config.reporting_on.
Proof.
  apply (@getDetails_first_active "/srv/config/database-config-plaintext.json"
           "reporting" Config.sample_files
           [Config.reporting_off; Config.reporting_on] Config.reporting_on).
  - reflexivity.
  - exists [Config.reporting_off], []. repeat split.
    + repeat constructor. exists (Config.JBool false). split; [reflexivity |].
      now left.
    + exists (Config.JBool true), (Config.JStr "reporting"). now repeat split.
Defined.

Lemma getDetails_not_found_witness :
  Config._getDetails "/srv/config/database-config-plaintext.json" "billing"
    Config.sample_files
  = Config.Raises
      (Config.ValueError "Unable to find active connection billing in JSON config file").
Proof.
  apply (@getDetails_not_found "/srv/config/database-config-plaintext.json"
           "billing" Config.sample_files
           [Config.reporting_off; Config.reporting_on]).
  - reflexivity.
  - repeat constructor.
    + exists (Config.JBool false). split; [reflexivity | now left].
    + exists (Config.JBool true). split; [reflexivity |]. right.
      exists (Config.JStr "reporting"). now split.
Defined.

Lemma getDetails_entry_without_active_witness :
  Config._getDetails "cfg"
    "reporting"
    (fun _ => Some [Config.reporting_off;
                    [("connection-name", Config.JStr "reporting")];
                    Config.reporting_on])
  = Config.Raises (Config.KeyError "active").
Proof.
  apply (@getDetails_entry_without_active "cfg" "reporting" _
           [Config.reporting_off] [Config.reporting_on]
           [("connection-name", Config.JStr "reporting")]).
  - reflexivity.
  - repeat constructor. exists (Config.JBool false). split; [reflexivity | now left].
  - reflexivity.
Defined.

Lemma sample_cipher_round_trip (i : nat) (text : string) :
  Config.sample_decrypt "k" (Config.sample_encrypt "k" i text) = Some text.
Proof.
  unfold Config.sample_decrypt, Config.sample_encrypt. simpl.
  assert (Hp : prefix "" text = true) by now destruct text.
  rewrite Hp, Nat.sub_0_r. now rewrite substring_all.
Qed.

Lemma encryptConfigFile_writes_beside_witness :
  let run := Config.encryptConfigFile (fun _ => true) Config.sample_encrypt "k"
               "/srv/config/database-config-plaintext.json" Config.sample_files in
  fst run = Config.Returns tt
  /\ snd run "/srv/config/database-config.json"
     = Some [Config.set "password" (Config.JStr "k:old") Config.reporting_off;
             Config.set "password" (Config.JStr "k:secret") Config.reporting_on]
  /\ (forall q, q <> "/srv/config/database-config.json" ->
                snd run q = Config.sample_files q)
  /\ snd run "/srv/config/database-config-plaintext.json"
     = Some [Config.reporting_off; Config.reporting_on].
Proof.
  apply (@encryptConfigFile_writes_beside (fun _ => true) Config.sample_encrypt
           "k" "/srv/config/database-config" Config.sample_files
           [Config.reporting_off; Config.reporting_on]);
    reflexivity.
Defined.

Lemma encryptConfigFile_short_path_witness :
  snd (Config.encryptConfigFile (fun _ => true) Config.sample_encrypt "k"
         "db.json" (fun _ => Some [Config.reporting_on])) ".json"
  = Some [Config.set "password" (Config.JStr "k:secret") Config.reporting_on].
Proof.
  apply (@encryptConfigFile_short_path (fun _ => true) Config.sample_encrypt
           "k" "db.json" (fun _ => Some [Config.reporting_on])
           [Config.reporting_on]).
  - reflexivity.
  - simpl. lia.
  - reflexivity.
  - reflexivity.
Defined.

Lemma encryptConfigFile_keeps_everything_else_witness :
  exists encrypted,
    snd (Config.encryptConfigFile (fun _ => true) Config.sample_encrypt "k"
           "/srv/config/database-config-plaintext.json" Config.sample_files)
      "/srv/config/database-config.json" = Some encrypted
    /\ List.length encrypted = 2%nat
    /\ forall n entry,
         nth_error [Config.reporting_off; Config.reporting_on] n = Some entry ->
         exists entry',
           nth_error encrypted n = Some entry'
           /\ Config.encrypted_as Config.sample_encrypt "k" n entry entry'
           /\ map fst entry' = map fst entry
           /\ forall key, key <> "password" ->
                          Config.get key entry' = Config.get key entry.
Proof.
  apply (@encryptConfigFile_keeps_everything_else (fun _ => true)
           Config.sample_encrypt "k"
           "/srv/config/database-config-plaintext.json" Config.sample_files _
           [Config.reporting_off; Config.reporting_on]);
    reflexivity.
Defined.

Lemma getDetails_after_encryption_witness :
  exists i entry',
    Config._getDetails "/srv/config/database-config.json" "reporting"
      (snd (Config.encryptConfigFile (fun _ => true) Config.sample_encrypt "k"
              "/srv/config/database-config-plaintext.json" Config.sample_files))
    = Config.Returns entry'
    /\ Config.encrypted_as Config.sample_encrypt "k" i Config.reporting_on entry'.
Proof.
  apply (@getDetails_after_encryption "/srv/config/database-config.json"
           (fun _ => true) Config.sample_encrypt "k"
           "/srv/config/database-config" "reporting" Config.sample_files
           [Config.reporting_off; Config.reporting_on]);
    reflexivity.
Defined.

Lemma password_round_trip_witness :
  exists entry',
    Config._getDetails "/srv/config/database-config.json" "reporting"
      (snd (Config.encryptConfigFile (fun _ => true) Config.sample_encrypt "k"
              "/srv/config/database-config-plaintext.json" Config.sample_files))
    = Config.Returns entry'
    /\ Config.password_of Config.sample_decrypt "k" entry' = Config.Returns "secret".
Proof.
  apply (@password_round_trip "/srv/config/database-config.json"
           (fun _ => true) Config.sample_encrypt Config.sample_decrypt "k"
           "/srv/config/database-config" "reporting" "secret" Config.sample_files
           [Config.reporting_off; Config.reporting_on] Config.reporting_on).
  - exact sample_cipher_round_trip.
  - reflexivity.
  - reflexivity.
  - reflexivity.
  - reflexivity.
  - reflexivity.
Defined.

Lemma encryptConfigFile_failure_writes_nothing_witness :
  snd (Config.encryptConfigFile (fun _ => false) Config.sample_encrypt
         "encryption_key_not_set"
         "/srv/config/database-config-plaintext.json" Config.sample_files)
  = Config.sample_files.
Proof.
  eapply (@encryptConfigFile_failure_writes_nothing (fun _ => false)
            Config.sample_encrypt "encryption_key_not_set"
            "/srv/config/database-config-plaintext.json" Config.sample_files).
  reflexivity.
Defined.

Lemma encryptConfigFile_entry_without_password_witness :
  exists e,
    Config.encryptConfigFile (fun _ => true) Config.sample_encrypt "k" "cfg.json"
      (fun _ => Some [Config.reporting_on; [("active", Config.JBool true)]])
    = (Config.Raises e,
       fun _ => Some [Config.reporting_on; [("active", Config.JBool true)]]).
Proof.
  apply (@encryptConfigFile_entry_without_password (fun _ => true)
           Config.sample_encrypt "k" "cfg.json" _
           [Config.reporting_on; [("active", Config.JBool true)]]
           [("active", Config.JBool true)]).
  - reflexivity.
  - reflexivity.
  - right. now left.
  - reflexivity.
Defined.
